(** * Task manager: the task entity and the task store of [task_manager.py]

    A shallow embedding of the classes [Priority], [Status], [Task] and
    [TaskManager], and the properties of the storage and query layer.

    The program is Python: attributes hold any value, objects are shared by
    reference, methods raise exceptions.  The embedding keeps all three:
    - values are a type [pyval] of Python values;
    - [Task] instances and the lists that hold them live in a heap and are
      named by references, so that two names of one list or of one task see
      each other's updates;
    - every operation is a computation [M A], taking the world to an outcome
      (a result or a raised exception) and the world after it. *)

From stdpp Require Import gmap strings list fin_maps.
From Stdlib Require Import ZArith NArith Ascii String Lia.

Local Open Scope string_scope.
Local Open Scope Z_scope.

(** ** Strings

    A [string] stands for a Python [str] whose code points are below 256
    (the Latin-1 range); the character [c] is the code point [N_of_ascii c].
    On these strings [str.lower] works character by character and stays in
    the range.  [str.upper] does not: three characters leave it.

    Strings with a code point from 256 on are not in the model, and no
    statement below speaks of them: there [str.lower] is not character by
    character (a capital sigma at the end of a word gets another small form
    than elsewhere, and U+0130 becomes two code points). *)

Module Str.

Definition code_points (s : string) : list N :=
  N_of_ascii <$> list_ascii_of_string s.

(** [str.lower] of one character: A-Z and the accented capitals
    U+00C0..U+00DE (but not the sign U+00D7) move up by 32. *)
Definition lower_char (c : ascii) : ascii :=
  let n := N_of_ascii c in
  if ((65 <=? n) && (n <=? 90))%N then ascii_of_N (n + 32)
  else if ((192 <=? n) && (n <=? 222) && negb (n =? 215))%N then ascii_of_N (n + 32)
  else c.

Fixpoint lower (s : string) : string :=
  match s with
  | EmptyString => EmptyString
  | String c s' => String (lower_char c) (lower s')
  end.

(** [str.upper] of one character, as code points: a-z and U+00E0..U+00FE
    (but not U+00F7) move down by 32; U+00DF becomes "SS", U+00B5 becomes
    U+039C and U+00FF becomes U+0178. *)
Definition upper_char (c : ascii) : list N :=
  let n := N_of_ascii c in
  if ((97 <=? n) && (n <=? 122))%N then [n - 32]%N
  else if ((224 <=? n) && (n <=? 254) && negb (n =? 247))%N then [n - 32]%N
  else if (n =? 223)%N then [83; 83]%N
  else if (n =? 181)%N then [924]%N
  else if (n =? 255)%N then [376]%N
  else [n].

Fixpoint upper (s : string) : list N :=
  match s with
  | EmptyString => []
  | String c s' => upper_char c ++ upper s'
  end.

(** [p] is at the start of [s]. *)
Fixpoint startswith (p s : string) : bool :=
  match p, s with
  | EmptyString, _ => true
  | String a p', String b s' => bool_decide (a = b) && startswith p' s'
  | String _ _, EmptyString => false
  end.

(** [needle in hay] on two strings. *)
Fixpoint contains (needle hay : string) : bool :=
  startswith needle hay ||
  match hay with
  | EmptyString => false
  | String _ hay' => contains needle hay'
  end.

End Str.

(** ** Values *)

(** [class Priority(Enum)] and [class Status(Enum)]. *)
Inductive Priority := LOW | MEDIUM | HIGH.
Inductive Status := PENDING | IN_PROGRESS | COMPLETED.

#[global] Instance Priority_eq_dec : EqDecision Priority.
Proof. solve_decision. Defined.
#[global] Instance Status_eq_dec : EqDecision Status.
Proof. solve_decision. Defined.

(** The Python values the program handles: what [json.load] returns (None,
    booleans, integers, strings, lists, dictionaries with string keys) and
    the members of the two enumerations.  Floating-point numbers and
    callables are left out. *)
#[warnings="-register-all"]
Inductive pyval :=
| VNone
| VBool (b : bool)
| VInt (z : Z)
| VStr (s : string)
| VList (l : list pyval)
| VDict (d : gmap string pyval)
| VPriority (p : Priority)
| VStatus (s : Status).

(** The values [json.dump] accepts: no enumeration member anywhere. *)
Fixpoint json_ok (v : pyval) : bool :=
  match v with
  | VList l => forallb json_ok l
  | VDict d => map_fold (λ _ v' acc, json_ok v' && acc) true d
  | VPriority _ | VStatus _ => false
  | VNone | VBool _ | VInt _ | VStr _ => true
  end.

(** ** Outcomes and the world *)

(** The exceptions of the program.  [DanglingRef] is not a Python exception:
    it is the model's answer at a reference the heap does not hold, which no
    Python execution reaches. *)
Inductive exn :=
| KeyError | ValueError | TypeError | AttributeError
| JSONDecodeError | UnicodeDecodeError | RecursionError | OSError | DanglingRef.

#[global] Instance exn_eq_dec : EqDecision exn.
Proof. solve_decision. Defined.

Inductive outcome (A : Type) :=
| Ret (a : A)
| Raise (e : exn).
Arguments Ret {A} a.
Arguments Raise {A} e.

(** A file is represented by what [json.load] makes of it.  [json.load]
    reads the file as text and parses the text, and there are three ways
    for it not to return a value:
    - [Undecodable]: the bytes are no text in the encoding [open] reads
      with, and reading raises [UnicodeDecodeError];
    - [Overnested]: the text opens more brackets, one inside the other, than
      the interpreter recurses, and the parser raises [RecursionError],
      whether or not the brackets are closed further on;
    - [Malformed]: the parser finds an error of syntax in the text and
      raises [JSONDecodeError]; an empty or half-written file is of this
      kind.
    Otherwise the text parses to a value, [Document v]. *)
Inductive file :=
| Undecodable
| Overnested
| Malformed
| Document (v : pyval).

Abbreviation loc := positive (only parsing).

(** The world: the [Task] instances (each one its attribute dictionary), the
    list objects (each one a sequence of references to tasks), the files by
    path, the paths the operating system refuses to open, and the local time
    as [strftime("%Y-%m-%d %H:%M:%S")] prints it. *)
Record world := World {
  objs : gmap loc (gmap string pyval);
  lsts : gmap loc (list loc);
  fs : gmap string file;
  denied : gset string;
  clock : string;
}.

Definition set_objs (f : gmap loc (gmap string pyval) → gmap loc (gmap string pyval))
    (w : world) : world :=
  World (f (objs w)) (lsts w) (fs w) (denied w) (clock w).
Definition set_lsts (f : gmap loc (list loc) → gmap loc (list loc)) (w : world) : world :=
  World (objs w) (f (lsts w)) (fs w) (denied w) (clock w).
Definition set_fs (f : gmap string file → gmap string file) (w : world) : world :=
  World (objs w) (lsts w) (f (fs w)) (denied w) (clock w).

(** Computations: state passing with exceptions.  What a computation did to
    the world before it raised stays done. *)
Definition M (A : Type) : Type := world → outcome A * world.

Definition ret {A} (a : A) : M A := λ w, (Ret a, w).
Definition raise {A} (e : exn) : M A := λ w, (Raise e, w).
Definition bind {A B} (m : M A) (k : A → M B) : M B :=
  λ w, match m w with
       | (Ret a, w') => k a w'
       | (Raise e, w') => (Raise e, w')
       end.

Declare Scope py_scope.
Delimit Scope py_scope with py.
Notation "x <- m ;; k" := (bind m (λ x, k))
  (at level 100, m at next level, right associativity) : py_scope.
Notation "m ;; k" := (bind m (λ _, k))
  (at level 100, right associativity) : py_scope.
Local Open Scope py_scope.

(** [try: body except E: handler]. *)
Definition try_except {A} (body : M A) (E : exn) (handler : M A) : M A :=
  λ w, match body w with
       | (Raise e, w') => if decide (e = E) then handler w' else (Raise e, w')
       | r => r
       end.

Definition lift {A} (o : outcome A) : M A := λ w, (o, w).

(** [[f(x) for x in l]]: the elements in order, each seeing the effects of
    the ones before. *)
Fixpoint for_each {A B} (f : A → M B) (l : list A) : M (list B) :=
  match l with
  | [] => ret []
  | x :: l' => y <- f x ;; ys <- for_each f l' ;; ret (y :: ys)
  end.

(** [[x for x in l if p(x)]]. *)
Fixpoint for_each_if {A} (p : A → M bool) (l : list A) : M (list A) :=
  match l with
  | [] => ret []
  | x :: l' => b <- p x ;; ys <- for_each_if p l' ;; ret (if b then x :: ys else ys)
  end.

Fixpoint for_ {A} (l : list A) (body : A → M unit) : M unit :=
  match l with
  | [] => ret tt
  | x :: l' => body x ;; for_ l' body
  end.

(** *** The heap *)

Definition new_obj (o : gmap string pyval) : M loc :=
  λ w, let l := fresh (dom (objs w)) in (Ret l, set_objs (insert l o) w).
Definition read_obj (l : loc) : M (gmap string pyval) :=
  λ w, match objs w !! l with
       | Some o => (Ret o, w)
       | None => (Raise DanglingRef, w)
       end.
Definition write_obj (l : loc) (o : gmap string pyval) : M unit :=
  λ w, (Ret tt, set_objs (insert l o) w).

Definition new_list (refs : list loc) : M loc :=
  λ w, let l := fresh (dom (lsts w)) in (Ret l, set_lsts (insert l refs) w).
Definition read_list (l : loc) : M (list loc) :=
  λ w, match lsts w !! l with
       | Some refs => (Ret refs, w)
       | None => (Raise DanglingRef, w)
       end.
Definition write_list (l : loc) (refs : list loc) : M unit :=
  λ w, (Ret tt, set_lsts (insert l refs) w).

(** [datetime.now().strftime("%Y-%m-%d %H:%M:%S")]. *)
Definition now : M pyval := λ w, (Ret (VStr (clock w)), w).

(** *** Files and the [json] module *)

(** [os.path.exists(path)]. *)
Definition path_exists (path : string) : M bool :=
  λ w, (Ret (bool_decide (is_Some (fs w !! path))), w).

(** [open(path, "r")]. *)
Definition open_read (path : string) : M file :=
  λ w, if decide (path ∈ denied w) then (Raise OSError, w)
       else match fs w !! path with
            | Some f => (Ret f, w)
            | None => (Raise OSError, w)
            end.

(** [open(path, "w")]: the file is emptied. *)
Definition open_write (path : string) : M unit :=
  λ w, if decide (path ∈ denied w) then (Raise OSError, w)
       else (Ret tt, set_fs (insert path Malformed) w).

(** [json.load(f)]. *)
Definition json_load (f : file) : M pyval :=
  match f with
  | Undecodable => raise UnicodeDecodeError
  | Overnested => raise RecursionError
  | Malformed => raise JSONDecodeError
  | Document v => ret v
  end.

(** [json.dump(v, f, indent=2)] on the file opened at [path]: a value that
    [json] accepts is written and loads back as itself; on any other value
    [json.dump] raises [TypeError] part-way and what it wrote so far, an
    unfinished text, stays in the file. *)
Definition json_dump (v : pyval) (path : string) : M unit :=
  if json_ok v then λ w, (Ret tt, set_fs (insert path (Document v)) w)
  else λ w, (Raise TypeError, set_fs (insert path Malformed) w).

(** ** The enumerations *)

Definition Priority_name (p : Priority) : string :=
  match p with LOW => "LOW" | MEDIUM => "MEDIUM" | HIGH => "HIGH" end.
Definition Priority_value (p : Priority) : Z :=
  match p with LOW => 1 | MEDIUM => 2 | HIGH => 3 end.
Definition Status_name (s : Status) : string :=
  match s with
  | PENDING => "PENDING" | IN_PROGRESS => "IN_PROGRESS" | COMPLETED => "COMPLETED"
  end.
Definition Status_value (s : Status) : string :=
  match s with
  | PENDING => "Pending" | IN_PROGRESS => "In Progress" | COMPLETED => "Completed"
  end.

(** [Priority[name]] for a string given by its code points: the member of
    that name, [KeyError] when there is none. *)
Definition Priority_by_name (name : list N) : outcome Priority :=
  if decide (name = Str.code_points "LOW") then Ret LOW
  else if decide (name = Str.code_points "MEDIUM") then Ret MEDIUM
  else if decide (name = Str.code_points "HIGH") then Ret HIGH
  else Raise KeyError.

(** [Priority[key]] for any value: the lookup in the table of names raises
    [TypeError] on a key that cannot be hashed, [KeyError] on any other key
    that is not a name. *)
Definition Priority_getitem (key : pyval) : outcome Priority :=
  match key with
  | VStr s => Priority_by_name (Str.code_points s)
  | VList _ | VDict _ => Raise TypeError
  | _ => Raise KeyError
  end.

(** [Status(value)]: the member with that value, a member itself, or
    [ValueError]. *)
Definition Status_call (value : pyval) : outcome Status :=
  match value with
  | VStr s =>
      if decide (s = "Pending") then Ret PENDING
      else if decide (s = "In Progress") then Ret IN_PROGRESS
      else if decide (s = "Completed") then Ret COMPLETED
      else Raise ValueError
  | VStatus s => Ret s
  | _ => Raise ValueError
  end.

(** [v.name] and [v.value]: only enumeration members have them. *)
Definition attr_name (v : pyval) : outcome pyval :=
  match v with
  | VPriority p => Ret (VStr (Priority_name p))
  | VStatus s => Ret (VStr (Status_name s))
  | _ => Raise AttributeError
  end.
Definition attr_value (v : pyval) : outcome pyval :=
  match v with
  | VPriority p => Ret (VInt (Priority_value p))
  | VStatus s => Ret (VStr (Status_value s))
  | _ => Raise AttributeError
  end.

(** [v.lower()] and [v.upper()]: only strings have them. *)
Definition py_lower (v : pyval) : outcome string :=
  match v with
  | VStr s => Ret (Str.lower s)
  | _ => Raise AttributeError
  end.
Definition py_upper (v : pyval) : outcome (list N) :=
  match v with
  | VStr s => Ret (Str.upper s)
  | _ => Raise AttributeError
  end.

(** [data[key]] for a string [key]: only a dictionary can be subscripted by
    a string. *)
Definition getitem (data : pyval) (key : string) : outcome pyval :=
  match data with
  | VDict d => match d !! key with
               | Some v => Ret v
               | None => Raise KeyError
               end
  | _ => Raise TypeError
  end.

(** [for x in v]: the elements of a list, the keys of a dictionary, the
    characters of a string.  (The keys come in the order of the map, not in
    Python's insertion order.) *)
Definition py_iter (v : pyval) : outcome (list pyval) :=
  match v with
  | VList l => Ret l
  | VDict d => Ret (VStr <$> (map_to_list d).*1)
  | VStr s => Ret ((λ c, VStr (String c EmptyString)) <$> list_ascii_of_string s)
  | _ => Raise TypeError
  end.

(** ** Attributes of a [Task] instance *)

(** [self.key]: the attributes the program reads are all instance
    attributes. *)
Definition getattr (self : loc) (key : string) : M pyval :=
  o <- read_obj self ;;
  match o !! key with
  | Some v => ret v
  | None => raise AttributeError
  end.

(** [setattr(self, key, value)] and [self.key = value].  Three names do
    not go to the instance dictionary: [__class__] takes only a class,
    [__weakref__] cannot be written, and [__dict__] is the instance
    dictionary itself. *)
Definition setattr (self : loc) (key : string) (value : pyval) : M unit :=
  o <- read_obj self ;;
  if decide (key = "__class__") then raise TypeError
  else if decide (key = "__weakref__") then raise AttributeError
  else if decide (key = "__dict__") then
    match value with
    | VDict d => write_obj self d
    | _ => raise TypeError
    end
  else write_obj self (<[key := value]> o).

(** The names the class statement of [Task] defines, and [__class__]. *)
Definition Task_class_names : list string :=
  ["__module__"; "__init__"; "__str__"; "mark_complete"; "to_dict"; "from_dict";
   "__dict__"; "__weakref__"; "__doc__"; "__class__"].

Section Hasattr.
(** The other names every object has from [object] ([__eq__], [__hash__],
    [__repr__], ...): which ones depends on the interpreter. *)
Variable object_attr : string → bool.

(** [hasattr(self, key)]. *)
Definition hasattr (self : loc) (key : string) : M bool :=
  o <- read_obj self ;;
  ret (bool_decide (key ∈ dom o) || bool_decide (key ∈ Task_class_names)
       || object_attr key).
End Hasattr.

(** [self.name()] for a method [name] of the class: an instance attribute
    of that name hides the method, and no value here can be called. *)
Definition call_method {A} (name : string) (method : loc → M A) (self : loc) : M A :=
  o <- read_obj self ;;
  if bool_decide (name ∈ dom o) then raise TypeError else method self.

(** ** [class Task] *)

Module Task.

(** [Task.__init__(self, title, description, due_date, priority, status)]. *)
Definition __init__ (self : loc) (title description due_date priority status : pyval)
    : M unit :=
  setattr self "title" title ;;
  setattr self "description" description ;;
  setattr self "due_date" due_date ;;
  setattr self "priority" priority ;;
  setattr self "status" status ;;
  t <- now ;;
  setattr self "created_at" t ;;
  setattr self "completed_at" VNone.

(** [Task(title, description, due_date, priority, status)]: a new instance,
    initialised.  The defaults of the signature are [default_description],
    [default_due_date], [default_priority] and [default_status]. *)
Definition new (title description due_date priority status : pyval) : M loc :=
  self <- new_obj ∅ ;;
  __init__ self title description due_date priority status ;;
  ret self.

Definition default_description : pyval := VStr "".
Definition default_due_date : pyval := VNone.
Definition default_priority : pyval := VPriority MEDIUM.
Definition default_status : pyval := VStatus PENDING.

(** [Task.mark_complete(self)]. *)
Definition mark_complete (self : loc) : M unit :=
  setattr self "status" (VStatus COMPLETED) ;;
  t <- now ;;
  setattr self "completed_at" t.

(** [Task.to_dict(self)]. *)
Definition to_dict (self : loc) : M pyval :=
  title <- getattr self "title" ;;
  description <- getattr self "description" ;;
  due_date <- getattr self "due_date" ;;
  priority <- getattr self "priority" ;;
  priority_name <- lift (attr_name priority) ;;
  status <- getattr self "status" ;;
  status_value <- lift (attr_value status) ;;
  created_at <- getattr self "created_at" ;;
  completed_at <- getattr self "completed_at" ;;
  ret (VDict (<["completed_at" := completed_at]>
             (<["created_at" := created_at]>
             (<["status" := status_value]>
             (<["priority" := priority_name]>
             (<["due_date" := due_date]>
             (<["description" := description]>
             (<["title" := title]> ∅)))))))).

(** [Task.from_dict(data)]. *)
Definition from_dict (data : pyval) : M loc :=
  title <- lift (getitem data "title") ;;
  description <- lift (getitem data "description") ;;
  due_date <- lift (getitem data "due_date") ;;
  priority_key <- lift (getitem data "priority") ;;
  priority <- lift (Priority_getitem priority_key) ;;
  status_key <- lift (getitem data "status") ;;
  status <- lift (Status_call status_key) ;;
  task <- new title description due_date (VPriority priority) (VStatus status) ;;
  created_at <- lift (getitem data "created_at") ;;
  setattr task "created_at" created_at ;;
  completed_at <- lift (getitem data "completed_at") ;;
  setattr task "completed_at" completed_at ;;
  ret task.

End Task.

(** ** [class TaskManager] *)

Module TaskManager.

(** The attributes of a manager: [self.filename] and [self.tasks], a
    reference to a list object.  [load_tasks] binds [self.tasks] to a new
    list; the operations that do so return the manager as they leave it. *)
Record t := Self {
  filename : string;
  tasks : loc;
}.

(** [TaskManager.save_tasks(self)]. *)
Definition save_tasks (self : t) : M unit :=
  open_write (filename self) ;;
  refs <- read_list (tasks self) ;;
  records <- for_each (call_method "to_dict" Task.to_dict) refs ;;
  json_dump (VList records) (filename self).

(** [TaskManager.load_tasks(self)]. *)
Definition load_tasks (self : t) : M t :=
  found <- path_exists (filename self) ;;
  if found : bool then
    f <- open_read (filename self) ;;
    try_except
      (tasks_data <- json_load f ;;
       items <- lift (py_iter tasks_data) ;;
       refs <- for_each Task.from_dict items ;;
       l <- new_list refs ;;
       ret (Self (filename self) l))
      JSONDecodeError
      (l <- new_list [] ;;
       ret (Self (filename self) l))
  else ret self.

(** [TaskManager.__init__(self, filename)]; the default [filename] is
    [default_filename]. *)
Definition __init__ (filename : string) : M t :=
  l <- new_list [] ;;
  load_tasks (Self filename l).

Definition default_filename : string := "tasks.json".

(** [TaskManager.add_task(self, task)]. *)
Definition add_task (self : t) (task : loc) : M unit :=
  refs <- read_list (tasks self) ;;
  write_list (tasks self) (refs ++ [task])%list ;;
  save_tasks self.

(** [0 <= index < len(refs)]. *)
Definition in_range (index : Z) (refs : list loc) : bool :=
  (0 <=? index) && (index <? Z.of_nat (List.length refs)).

(** [TaskManager.delete_task(self, index)]. *)
Definition delete_task (self : t) (index : Z) : M bool :=
  refs <- read_list (tasks self) ;;
  if in_range index refs then
    write_list (tasks self) (delete (Z.to_nat index) refs) ;;
    save_tasks self ;;
    ret true
  else ret false.

Section Update.
Variable object_attr : string → bool.

(** The body of the loop of [update_task], for one [key, value]. *)
Definition update_field (task : loc) (kv : string * pyval) : M unit :=
  let '(key, value) := kv in
  known <- hasattr object_attr task key ;;
  if known : bool then
    if decide (key = "priority") then
      name <- lift (py_upper value) ;;
      p <- lift (Priority_by_name name) ;;
      setattr task key (VPriority p)
    else if decide (key = "status") then
      s <- lift (Status_call value) ;;
      setattr task key (VStatus s)
    else setattr task key value
  else ret tt.

(** [TaskManager.update_task(self, index, **kwargs)]; [kwargs] lists the
    keyword arguments in the order they were given. *)
Definition update_task (self : t) (index : Z) (kwargs : list (string * pyval)) : M bool :=
  refs <- read_list (tasks self) ;;
  if in_range index refs then
    match refs !! Z.to_nat index with
    | Some task =>
        for_ kwargs (update_field task) ;;
        save_tasks self ;;
        ret true
    | None => raise DanglingRef
    end
  else ret false.
End Update.

(** [task.status == filter_status] for a member [filter_status]: a member
    equals itself and nothing else. *)
Definition status_eq (v : pyval) (filter_status : Status) : bool :=
  match v with
  | VStatus s => bool_decide (s = filter_status)
  | _ => false
  end.

(** [TaskManager.list_tasks(self, filter_status)]: every member of [Status]
    is true as a condition, [None] is false. *)
Definition list_tasks (self : t) (filter_status : option Status) : M loc :=
  match filter_status with
  | Some st =>
      refs <- read_list (tasks self) ;;
      found <- for_each_if (λ task, s <- getattr task "status" ;; ret (status_eq s st)) refs ;;
      new_list found
  | None => ret (tasks self)
  end.

(** The condition of [search_tasks] for one task; [or] does not evaluate
    its second operand when the first is true. *)
Definition matches (keyword : string) (task : loc) : M bool :=
  title <- getattr task "title" ;;
  title_lower <- lift (py_lower title) ;;
  if Str.contains keyword title_lower then ret true
  else
    description <- getattr task "description" ;;
    description_lower <- lift (py_lower description) ;;
    ret (Str.contains keyword description_lower).

(** [TaskManager.search_tasks(self, keyword)]. *)
Definition search_tasks (self : t) (keyword : string) : M loc :=
  let keyword := Str.lower keyword in
  refs <- read_list (tasks self) ;;
  found <- for_each_if (matches keyword) refs ;;
  new_list found.

End TaskManager.

(** [l.append(x)] on a list object, as a caller of [list_tasks] may do to the
    list it was handed. *)
Definition list_append (l : loc) (x : loc) : M unit :=
  refs <- read_list l ;;
  write_list l (refs ++ [x]).

(** ** Well-formed tasks and stores *)

(** The attribute dictionary [Task.__init__] builds, and the one an instance
    has once [created_at] and [completed_at] are set to given values. *)
Definition task_dict (title description due_date priority status created_at completed_at
    : pyval) : gmap string pyval :=
  <["completed_at" := completed_at]>
  (<["created_at" := created_at]>
  (<["status" := status]>
  (<["priority" := priority]>
  (<["due_date" := due_date]>
  (<["description" := description]>
  (<["title" := title]> ∅)))))).

(** The attributes of a task whose [priority] and [status] are members of
    their enumerations; the other five hold any value. *)
Record fields := Fields {
  title : pyval;
  description : pyval;
  due_date : pyval;
  priority : Priority;
  status : Status;
  created_at : pyval;
  completed_at : pyval;
}.

Definition is_str (v : pyval) : bool :=
  match v with VStr _ => true | _ => false end.
Definition is_str_or_none (v : pyval) : bool :=
  match v with VStr _ | VNone => true | _ => false end.

(** The fields are of the kinds the program means them to have: strings for
    the title, the description and [created_at], a string or [None] for
    [due_date] and [completed_at]. *)
Definition valid (f : fields) : bool :=
  is_str (title f) && is_str (description f) && is_str_or_none (due_date f)
  && is_str (created_at f) && is_str_or_none (completed_at f).

(** The fields are values [json.dump] accepts. *)
Definition jsonable (f : fields) : bool :=
  json_ok (title f) && json_ok (description f) && json_ok (due_date f)
  && json_ok (created_at f) && json_ok (completed_at f).

(** The instance with these fields: its attributes are the seven fields and
    nothing else. *)
Definition instance (f : fields) : gmap string pyval :=
  task_dict (title f) (description f) (due_date f)
            (VPriority (priority f)) (VStatus (status f))
            (created_at f) (completed_at f).

(** The record [to_dict] makes of these fields. *)
Definition record (f : fields) : pyval :=
  VDict (task_dict (title f) (description f) (due_date f)
                   (VStr (Priority_name (priority f))) (VStr (Status_value (status f)))
                   (created_at f) (completed_at f)).

(** [l] refers to a task with fields [f]. *)
Definition is_task (w : world) (l : loc) (f : fields) : Prop :=
  objs w !! l = Some (instance f).

(** The manager's list is the list object holding [refs], and they refer in
    order to tasks with the fields [fs]. *)
Definition is_store (w : world) (m : TaskManager.t) (refs : list loc) (fl : list fields)
    : Prop :=
  lsts w !! TaskManager.tasks m = Some refs ∧ Forall2 (is_task w) refs fl.

(** The names [setattr] does not store in the instance dictionary. *)
Definition special (key : string) : Prop :=
  key = "__class__" ∨ key = "__weakref__" ∨ key = "__dict__".

(** ** What [update_task] does to the fields *)

Definition field_names : list string :=
  ["title"; "description"; "due_date"; "priority"; "status"; "created_at"; "completed_at"].

(** The fields after [update_field] on one [key, value], for the pairs it
    handles without raising and without touching anything but a field:
    - a value [json.dump] accepts for one of the five plain fields;
    - for [priority], a string whose upper-case form is the name of a member;
    - for [status], a value [Status] maps to a member;
    - any value for a name that is no attribute of the instance at all (the
      fields stay as they are).
    There is no answer for the other pairs. *)
Definition field_update (object_attr : string → bool) (kv : string * pyval) (f : fields)
    : option fields :=
  let '(key, v) := kv in
  if decide (key = "title") then
    if json_ok v
    then Some (Fields v (description f) (due_date f) (priority f) (status f)
                      (created_at f) (completed_at f))
    else None
  else if decide (key = "description") then
    if json_ok v
    then Some (Fields (title f) v (due_date f) (priority f) (status f)
                      (created_at f) (completed_at f))
    else None
  else if decide (key = "due_date") then
    if json_ok v
    then Some (Fields (title f) (description f) v (priority f) (status f)
                      (created_at f) (completed_at f))
    else None
  else if decide (key = "priority") then
    match v with
    | VStr s =>
        match Priority_by_name (Str.upper s) with
        | Ret p => Some (Fields (title f) (description f) (due_date f) p (status f)
                                (created_at f) (completed_at f))
        | Raise _ => None
        end
    | _ => None
    end
  else if decide (key = "status") then
    match Status_call v with
    | Ret s => Some (Fields (title f) (description f) (due_date f) (priority f) s
                            (created_at f) (completed_at f))
    | Raise _ => None
    end
  else if decide (key = "created_at") then
    if json_ok v
    then Some (Fields (title f) (description f) (due_date f) (priority f) (status f)
                      v (completed_at f))
    else None
  else if decide (key = "completed_at") then
    if json_ok v
    then Some (Fields (title f) (description f) (due_date f) (priority f) (status f)
                      (created_at f) v)
    else None
  else if bool_decide (key ∈ Task_class_names) || object_attr key then None
  else Some f.

Arguments field_update : simpl never.

(** The same for the pairs of [kwargs], in order. *)
Fixpoint field_updates (object_attr : string → bool) (kwargs : list (string * pyval))
    (f : fields) : option fields :=
  match kwargs with
  | [] => Some f
  | kv :: kwargs' =>
      match field_update object_attr kv f with
      | Some f' => field_updates object_attr kwargs' f'
      | None => None
      end
  end.

(** A pair [key, value] that [field_update] covers. *)
Definition accepted (object_attr : string → bool) (kv : string * pyval) : bool :=
  let '(key, v) := kv in
  if decide (key = "priority") then
    match v with
    | VStr s => match Priority_by_name (Str.upper s) with Ret _ => true | Raise _ => false end
    | _ => false
    end
  else if decide (key = "status") then
    match Status_call v with Ret _ => true | Raise _ => false end
  else if bool_decide (key ∈ field_names) then json_ok v
  else negb (bool_decide (key ∈ Task_class_names) || object_attr key).

(** What the attribute dictionary [o] holds under [key] once [update_task]
    was given [key=v]: for [priority] the member whose name is the
    upper-case form of the string [v], for [status] the member [Status(v)],
    for another field [v] itself, and nothing for a name that is no field. *)
Definition stored_as (key : string) (v : pyval) (o : gmap string pyval) : Prop :=
  (key = "priority" →
     ∃ s p, v = VStr s ∧ Priority_by_name (Str.upper s) = Ret p
            ∧ o !! key = Some (VPriority p))
  ∧ (key = "status" → ∃ s, Status_call v = Ret s ∧ o !! key = Some (VStatus s))
  ∧ (key ∈ field_names → key ≠ "priority" → key ≠ "status" → o !! key = Some v)
  ∧ (key ∉ field_names → o !! key = None).

(** The fields of the tasks of a store after the task [task] got the fields
    [f']: every place of the list that refers to [task] shows them. *)
Definition retarget (task : loc) (f' : fields) (refs : list loc) (fl : list fields)
    : list fields :=
  zip_with (λ r f, if decide (r = task) then f' else f) refs fl.

(** ** What the queries select *)

(** The references of the store whose task has the status [st], in the order
    of the store. *)
Definition with_status (st : Status) (refs : list loc) (fl : list fields) : list loc :=
  (filter (λ rf, status rf.2 = st) (zip refs fl)).*1.

(** The tasks [list_tasks] is to return: all of them without a filter. *)
Definition listed (filter_status : option Status) (refs : list loc) (fl : list fields)
    : list loc :=
  match filter_status with
  | Some st => with_status st refs fl
  | None => refs
  end.

(** [small] is the small form of the capital letter [capital].  The capital
    letters of the range are A-Z and U+00C0..U+00DE (U+00D7, the
    multiplication sign, is no letter); the small form of each is 32 code
    points further on.  No other character of the range has another case
    inside the range. *)
Definition small_of (capital small : ascii) : Prop :=
  let n := N_of_ascii capital in
  (((65 ≤ n ∧ n ≤ 90) ∨ (192 ≤ n ∧ n ≤ 222 ∧ n ≠ 215)) ∧ N_of_ascii small = n + 32)%N.

(** Two characters that differ at most in case: the same character, or the
    capital and the small form of one letter. *)
Definition same_letter (a b : ascii) : Prop := a = b ∨ small_of a b ∨ small_of b a.

#[global] Instance same_letter_dec a b : Decision (same_letter a b).
Proof. unfold same_letter, small_of. cbv zeta. apply _. Defined.

(** Two strings that are equal when case is ignored. *)
Fixpoint same_text (s t : string) : Prop :=
  match s, t with
  | EmptyString, EmptyString => True
  | String a s', String b t' => same_letter a b ∧ same_text s' t'
  | _, _ => False
  end.

(** [keyword] occurs in [s] when case is ignored: some stretch of [s] is
    the same text as [keyword]. *)
Definition occurs_in (keyword s : string) : Prop :=
  ∃ pre mid post, s = pre +:+ mid +:+ post ∧ same_text keyword mid.

(** [keyword] occurs in the title or in the description of the task. *)
Definition mentions (keyword : string) (f : fields) : Prop :=
  (∃ t, title f = VStr t ∧ occurs_in keyword t)
  ∨ (∃ d, description f = VStr d ∧ occurs_in keyword d).

(** The same as a test, the way [search_tasks] makes it. *)
Definition hit (keyword : string) (f : fields) : bool :=
  match title f with
  | VStr t => Str.contains (Str.lower keyword) (Str.lower t)
  | _ => false
  end
  || match description f with
     | VStr d => Str.contains (Str.lower keyword) (Str.lower d)
     | _ => false
     end.

(** ** What loading needs *)

(** [w'] is [w] with more task instances: the instances of [w] are there
    unchanged, and the lists, the files and the clock are those of [w]. *)
Definition extends (w w' : world) : Prop :=
  objs w ⊆ objs w' ∧ lsts w' = lsts w ∧ fs w' = fs w ∧ denied w' = denied w
  ∧ clock w' = clock w.

Definition priority_names : list string := ["LOW"; "MEDIUM"; "HIGH"].
Definition status_values : list string := ["Pending"; "In Progress"; "Completed"].

(** A record [from_dict] cannot read: a required key is missing, or the
    priority is not the name of a member, or the status is not the value of
    a member. *)
Definition unreadable (d : gmap string pyval) : Prop :=
  (∃ k, k ∈ field_names ∧ d !! k = None)
  ∨ (∃ v, d !! "priority" = Some v ∧ ∀ s, s ∈ priority_names → v ≠ VStr s)
  ∨ (∃ v, d !! "status" = Some v ∧ ∀ s, s ∈ status_values → v ≠ VStr s).

(** A sequence of records, one of them unreadable. *)
Definition is_record (v : pyval) : Prop := ∃ d, v = VDict d.
Definition is_unreadable (v : pyval) : Prop := ∃ d, v = VDict d ∧ unreadable d.

(** ** Fields after a transition *)

(** The fields of a task once [mark_complete] ran at the time [t]. *)
Definition completed (t : string) (f : fields) : fields :=
  Fields (title f) (description f) (due_date f) (priority f) COMPLETED (created_at f)
         (VStr t).

(** The fields of [Task(title)] built at the time [t], every other argument
    left to its default. *)
Definition default_fields (title : pyval) (t : string) : fields :=
  Fields title (VStr "") VNone MEDIUM PENDING (VStr t) VNone.

(** The world when the clock shows [t]. *)
Definition at_time (t : string) (w : world) : world :=
  World (objs w) (lsts w) (fs w) (denied w) t.

(** A member of one of the two enumerations. *)
Definition is_member (v : pyval) : bool :=
  match v with
  | VPriority _ | VStatus _ => true
  | _ => false
  end.

(** A value that is no container: [None], a boolean or an integer. *)
Definition scalar (v : pyval) : bool :=
  match v with
  | VNone | VBool _ | VInt _ => true
  | _ => false
  end.


(** Every character there is, in the order of the code points. *)
Definition all_chars : list ascii := ascii_of_nat <$> seq 0 256.


(** What the proof of the search checks for two characters: they are the
    same letter exactly when [str.lower] sends them to one character. *)
Definition lower_agrees (a b : ascii) : bool :=
  bool_decide (same_letter a b ↔ Str.lower_char a = Str.lower_char b).

(** ** Example worlds *)

(** The names of [object] in CPython 3.12 ([dir(object)]). *)
Definition cpython_object_attr (key : string) : bool :=
  bool_decide (key ∈
    ["__class__"; "__delattr__"; "__dir__"; "__doc__"; "__eq__"; "__format__"; "__ge__";
     "__getattribute__"; "__getstate__"; "__gt__"; "__hash__"; "__init__";
     "__init_subclass__"; "__le__"; "__lt__"; "__ne__"; "__new__"; "__reduce__";
     "__reduce_ex__"; "__repr__"; "__setattr__"; "__sizeof__"; "__str__";
     "__subclasshook__"]).

Definition plan : fields :=
  Fields (VStr "project-alpha-plan") (VStr "") VNone MEDIUM PENDING
         (VStr "2024-01-01 10:00:00") VNone.

(** The record of [plan], as a dictionary. *)
Definition plan_dict : gmap string pyval :=
  task_dict (VStr "project-alpha-plan") (VStr "") VNone (VStr "MEDIUM") (VStr "Pending")
            (VStr "2024-01-01 10:00:00") VNone.

Definition milk : fields :=
  Fields (VStr "Buy milk") (VStr "two litres") (VStr "2024-01-05") HIGH COMPLETED
         (VStr "2024-01-02 08:00:00") (VStr "2024-01-03 18:45:10").

(** A world with the two tasks [plan] and [milk], a manager on [t.json]
    whose list holds both, and no file yet. *)
Definition two_tasks : world :=
  World (<[1%positive := instance plan]> (<[2%positive := instance milk]> ∅))
        (<[1%positive := [1%positive; 2%positive]]> ∅)
        ∅ ∅ "2024-01-04 12:00:00".

Definition manager : TaskManager.t := TaskManager.Self "t.json" 1.

Definition bank : fields :=
  Fields (VStr "Call the bank") (VStr "") VNone LOW IN_PROGRESS
         (VStr "2024-01-03 09:00:00") VNone.

(** [two_tasks] with a third task, [bank], that the manager does not hold. *)
Definition new_task : world := set_objs (insert 3%positive (instance bank)) two_tasks.

(** A store whose second task was built with [priority="HIGH"], a string,
    and a file [t.json] that holds the record of the first task. *)
Definition string_priority : world :=
  World (<[1%positive := instance plan]>
         (<[2%positive := task_dict (VStr "Pay rent") (VStr "") VNone (VStr "HIGH")
                                    (VStatus PENDING) (VStr "2024-01-03 09:00:00") VNone]> ∅))
        (<[1%positive := [1%positive; 2%positive]]> ∅)
        (<["t.json" := Document (VList [record plan])]> ∅) ∅ "2024-01-04 12:00:00".

(** A store whose second task has no title ([None]), as [from_dict] makes
    of a record with a null title. *)
Definition untitled : fields :=
  Fields VNone (VStr "alpha release") VNone LOW PENDING (VStr "2024-01-03 09:00:00") VNone.

Definition null_title : world :=
  World (<[1%positive := instance plan]> (<[2%positive := instance untitled]> ∅))
        (<[1%positive := [1%positive; 2%positive]]> ∅)
        ∅ ∅ "2024-01-04 12:00:00".

(** The title "Straße", whose fifth character is U+00DF, and a store that
    holds one task of that title. *)
Definition street : string := "Stra" +:+ String (ascii_of_N 223) "e".

Definition street_task : fields :=
  Fields (VStr street) (VStr "") VNone MEDIUM PENDING (VStr "2024-01-01 10:00:00") VNone.

Definition street_store : world :=
  World (<[1%positive := instance street_task]> ∅) (<[1%positive := [1%positive]]> ∅)
        ∅ ∅ "2024-01-04 12:00:00".

(** A store that holds the task [plan] twice. *)
Definition same_task_twice : world :=
  World (<[1%positive := instance plan]> ∅)
        (<[1%positive := [1%positive; 1%positive]]> ∅)
        ∅ ∅ "2024-01-04 12:00:00".

(** A world with a file [t.json] that holds the number 7. *)
Definition number_file : world :=
  World ∅ ∅ (<["t.json" := Document (VInt 7)]> ∅) ∅ "2024-01-04 12:00:00".

(** The same world with a file [t.json] that does not parse. *)
Definition broken_file : world :=
  World (objs two_tasks) (lsts two_tasks) (<["t.json" := Malformed]> ∅) ∅ (clock two_tasks).

(** The same world with a file [t.json] whose bytes are no text (the three
    bytes FF FE 7B, say). *)
Definition binary_file : world :=
  World (objs two_tasks) (lsts two_tasks) (<["t.json" := Undecodable]> ∅) ∅
        (clock two_tasks).

(** The same world with a file [t.json] that opens more brackets than the
    interpreter recurses (200000 times "[", say, and nothing else). *)
Definition deep_file : world :=
  World (objs two_tasks) (lsts two_tasks) (<["t.json" := Overnested]> ∅) ∅
        (clock two_tasks).

(** A record whose priority is no name of a member. *)
Definition urgent_record : pyval :=
  VDict (task_dict (VStr "Call the bank") (VStr "") VNone (VStr "URGENT") (VStr "Pending")
                   (VStr "2024-01-03 09:00:00") VNone).

(** The same world with a file [t.json] that holds the record of [plan] and
    then [urgent_record]. *)
Definition bad_record_file : world :=
  World (objs two_tasks) (lsts two_tasks)
        (<["t.json" := Document (VList [record plan; urgent_record])]> ∅) ∅
        (clock two_tasks).

(** ** Running computations *)

Lemma bind_Ret {A B} (m : M A) (k : A → M B) w a w' :
  m w = (Ret a, w') → bind m k w = k a w'.
Proof. unfold bind. by intros ->. Qed.

Lemma bind_Raise {A B} (m : M A) (k : A → M B) w e w' :
  m w = (Raise e, w') → bind m k w = (Raise e, w').
Proof. unfold bind. by intros ->. Qed.

Lemma bind_lift_Ret {A B} (o : outcome A) (k : A → M B) w a :
  o = Ret a → bind (lift o) k w = k a w.
Proof. by intros ->. Qed.

Lemma read_obj_Ret w l o : objs w !! l = Some o → read_obj l w = (Ret o, w).
Proof. unfold read_obj. by intros ->. Qed.

Lemma read_list_Ret w l refs : lsts w !! l = Some refs → read_list l w = (Ret refs, w).
Proof. unfold read_list. by intros ->. Qed.

Lemma getattr_Ret w l o k v :
  objs w !! l = Some o → o !! k = Some v → getattr l k w = (Ret v, w).
Proof.
  intros Hl Hk. unfold getattr. rewrite (bind_Ret _ _ _ _ _ (read_obj_Ret _ _ _ Hl)).
  by rewrite Hk.
Qed.

Lemma setattr_Ret w l o k v :
  objs w !! l = Some o → ¬ special k →
  setattr l k v w = (Ret tt, set_objs (insert l (<[k := v]> o)) w).
Proof.
  intros Hl Hk. unfold setattr. rewrite (bind_Ret _ _ _ _ _ (read_obj_Ret _ _ _ Hl)).
  unfold special in Hk. repeat case_decide; naive_solver.
Qed.

Lemma set_objs_set_objs f g w : set_objs f (set_objs g w) = set_objs (f ∘ g) w.
Proof. done. Qed.

Lemma objs_set_objs f w : objs (set_objs f w) = f (objs w).
Proof. done. Qed.

Lemma objs_set_fs f w : objs (set_fs f w) = objs w.
Proof. done. Qed.

Lemma objs_set_lsts f w : objs (set_lsts f w) = objs w.
Proof. done. Qed.

Lemma lsts_set_lsts f w : lsts (set_lsts f w) = f (lsts w).
Proof. done. Qed.

Lemma lsts_set_objs f w : lsts (set_objs f w) = lsts w.
Proof. done. Qed.

Lemma lsts_set_fs f w : lsts (set_fs f w) = lsts w.
Proof. done. Qed.

Lemma not_special_field k :
  k ∈ ["title"; "description"; "due_date"; "priority"; "status"; "created_at";
       "completed_at"] → ¬ special k.
Proof.
  intros Hk [-> | [-> | ->]]; repeat (apply elem_of_cons in Hk as [Hk | Hk]; [discriminate |]);
    by apply elem_of_nil in Hk.
Qed.

Ltac field_name := apply not_special_field; repeat constructor.

(** Writing an attribute of an instance whose dictionary is known. *)
Lemma setattr_at w l o k v :
  ¬ special k →
  setattr l k v (set_objs (insert l o) w)
  = (Ret tt, set_objs (insert l (<[k := v]> o)) w).
Proof.
  intros Hk. erewrite setattr_Ret; [| apply lookup_insert_eq | done].
  rewrite set_objs_set_objs. destruct w; unfold set_objs; simpl.
  by rewrite insert_insert_eq.
Qed.

Lemma now_at w : now w = (Ret (VStr (clock w)), w).
Proof. done. Qed.

Ltac run_setattr :=
  erewrite bind_Ret by (apply setattr_at; field_name).

Lemma init_Ret w l o t d dd p s :
  Task.__init__ l t d dd p s (set_objs (insert l o) w)
  = (Ret tt,
     set_objs (insert l
       (<["completed_at" := VNone]>
       (<["created_at" := VStr (clock w)]>
       (<["status" := s]>
       (<["priority" := p]>
       (<["due_date" := dd]>
       (<["description" := d]>
       (<["title" := t]> o)))))))) w).
Proof.
  unfold Task.__init__. do 5 run_setattr.
  erewrite bind_Ret by apply now_at. run_setattr.
  apply setattr_at; field_name.
Qed.

Lemma new_Ret w t d dd p s :
  Task.new t d dd p s w
  = (Ret (fresh (dom (objs w))),
     set_objs (insert (fresh (dom (objs w)))
                      (task_dict t d dd p s (VStr (clock w)) VNone)) w).
Proof.
  unfold Task.new. erewrite bind_Ret by reflexivity.
  fold (set_objs (insert (fresh (dom (objs w))) ∅) w).
  erewrite bind_Ret by apply init_Ret. done.
Qed.

Lemma fresh_obj w : objs w !! fresh (dom (objs w)) = None.
Proof. apply not_elem_of_dom, is_fresh. Qed.

Lemma fresh_list w : lsts w !! fresh (dom (lsts w)) = None.
Proof. apply not_elem_of_dom, is_fresh. Qed.

(** What the seven names hold in a dictionary built by [task_dict]. *)
Lemma task_dict_lookup t d dd p s c ca :
  let o := task_dict t d dd p s c ca in
  o !! "title" = Some t ∧ o !! "description" = Some d ∧ o !! "due_date" = Some dd
  ∧ o !! "priority" = Some p ∧ o !! "status" = Some s
  ∧ o !! "created_at" = Some c ∧ o !! "completed_at" = Some ca.
Proof. unfold task_dict. by repeat split; simplify_map_eq. Qed.

Lemma task_dict_dom t d dd p s c ca :
  dom (task_dict t d dd p s c ca)
  = list_to_set ["title"; "description"; "due_date"; "priority"; "status"; "created_at";
                 "completed_at"].
Proof. unfold task_dict. rewrite !dom_insert_L. set_solver. Qed.

(** Setting again [created_at] and [completed_at]. *)
Lemma task_dict_reset t d dd p s c ca c' ca' :
  <["completed_at" := ca']> (<["created_at" := c']> (task_dict t d dd p s c ca))
  = task_dict t d dd p s c' ca'.
Proof.
  unfold task_dict. apply map_eq. intros k.
  destruct (decide (k = "completed_at")) as [-> | ?]; [by rewrite !lookup_insert_eq |].
  destruct (decide (k = "created_at")) as [-> | ?].
  - repeat (rewrite (lookup_insert_ne _ "completed_at") by done).
    by rewrite !lookup_insert_eq.
  - by repeat first [ rewrite (lookup_insert_ne _ "completed_at") by done
                    | rewrite (lookup_insert_ne _ "created_at") by done ].
Qed.

Lemma Priority_getitem_name p : Priority_getitem (VStr (Priority_name p)) = Ret p.
Proof. by destruct p. Qed.

Lemma Status_call_value s : Status_call (VStr (Status_value s)) = Ret s.
Proof. by destruct s. Qed.

Ltac run_getattr Hl Hk :=
  erewrite bind_Ret by (eapply getattr_Ret; [exact Hl | apply Hk]).

Lemma to_dict_Ret w l f : is_task w l f → Task.to_dict l w = (Ret (record f), w).
Proof.
  intros Hl. unfold is_task in Hl.
  destruct (task_dict_lookup (title f) (description f) (due_date f)
              (VPriority (priority f)) (VStatus (status f)) (created_at f) (completed_at f))
    as (H1 & H2 & H3 & H4 & H5 & H6 & H7).
  unfold Task.to_dict.
  run_getattr Hl H1. run_getattr Hl H2. run_getattr Hl H3. run_getattr Hl H4.
  erewrite bind_lift_Ret by reflexivity.
  run_getattr Hl H5. erewrite bind_lift_Ret by reflexivity.
  run_getattr Hl H6. run_getattr Hl H7. done.
Qed.

(** [from_dict] on the record of [f]: a new instance with the fields [f],
    whatever the clock says. *)
Lemma from_dict_Ret w f :
  Task.from_dict (record f) w
  = (Ret (fresh (dom (objs w))), set_objs (insert (fresh (dom (objs w))) (instance f)) w).
Proof.
  destruct (task_dict_lookup (title f) (description f) (due_date f)
              (VStr (Priority_name (priority f))) (VStr (Status_value (status f)))
              (created_at f) (completed_at f))
    as (H1 & H2 & H3 & H4 & H5 & H6 & H7).
  unfold Task.from_dict, record, getitem.
  rewrite H1, H2, H3, H4, H5, H6, H7.
  do 4 (erewrite bind_lift_Ret by reflexivity).
  erewrite bind_lift_Ret by apply Priority_getitem_name.
  erewrite bind_lift_Ret by reflexivity.
  erewrite bind_lift_Ret by apply Status_call_value.
  erewrite bind_Ret by apply new_Ret.
  erewrite bind_lift_Ret by reflexivity. run_setattr.
  erewrite bind_lift_Ret by reflexivity. run_setattr.
  unfold ret, instance. by rewrite task_dict_reset.
Qed.

(** * The properties of the specification *)

(** C1 helper: the round trip holds for every instance whose [priority] and
    [status] are members, whatever the other fields hold. *)
Lemma to_dict_from_dict w l f :
  is_task w l f →
  (r <- Task.to_dict l ;; Task.from_dict r) w
  = (Ret (fresh (dom (objs w))), set_objs (insert (fresh (dom (objs w))) (instance f)) w).
Proof.
  intros Hl. erewrite bind_Ret by (by apply to_dict_Ret). apply from_dict_Ret.
Qed.

(** C1: for every task [t] with valid fields, [from_dict(to_dict(t))] is a
    task with the same fields as [t], [created_at] and [completed_at]
    included: the new instance is another object than [t], its attribute
    dictionary is that of [t], and [t] is left as it was. *)
Theorem from_dict_to_dict_roundtrip w l f :
  is_task w l f → valid f = true →
  ∃ l' w',
    (r <- Task.to_dict l ;; Task.from_dict r) w = (Ret l', w')
    ∧ l' ≠ l
    ∧ objs w' !! l' = objs w !! l
    ∧ is_task w' l' f
    ∧ is_task w' l f.
Proof.
  intros Hl _. eexists _, _. split; [by apply to_dict_from_dict |].
  assert (fresh (dom (objs w)) ≠ l) as Hne.
  { intros Heq. unfold is_task in Hl. by rewrite <- Heq, fresh_obj in Hl. }
  unfold is_task in *. rewrite objs_set_objs, lookup_insert_eq, lookup_insert_ne by done.
  by rewrite Hl.
Qed.

Lemma from_dict_to_dict_roundtrip_witness :
  ∃ l' w',
    (r <- Task.to_dict 2%positive ;; Task.from_dict r) two_tasks = (Ret l', w')
    ∧ l' ≠ 2%positive
    ∧ objs w' !! l' = objs two_tasks !! 2%positive
    ∧ is_task w' l' milk
    ∧ is_task w' 2%positive milk.
Proof. apply from_dict_to_dict_roundtrip; reflexivity. Defined.

(** C10: a new [Task] has [completed_at] set to [None] whatever status it is
    given; its [status] is the one given, so a task built with
    [Status.COMPLETED] is completed and has no [completed_at]. *)
Theorem new_task_completed_at_none w t d dd p s :
  ∃ l w' o,
    Task.new t d dd p s w = (Ret l, w')
    ∧ objs w !! l = None
    ∧ objs w' !! l = Some o
    ∧ o !! "completed_at" = Some VNone
    ∧ o !! "status" = Some s
    ∧ (s = VStatus COMPLETED → o !! "status" = Some (VStatus COMPLETED)
                               ∧ o !! "completed_at" = Some VNone).
Proof.
  eexists _, _, _. split; [apply new_Ret |]. split; [apply fresh_obj |].
  split; [by rewrite objs_set_objs, lookup_insert_eq |].
  destruct (task_dict_lookup t d dd p s (VStr (clock w)) VNone)
    as (_ & _ & _ & _ & Hs & _ & Hc).
  split; [done |]. split; [done |]. intros ->. by split.
Qed.

(** ** Saving *)

Lemma json_ok_dict d :
  json_ok (VDict d) = true ↔ map_Forall (λ _ v, json_ok v = true) d.
Proof.
  change (json_ok (VDict d)) with (map_fold (λ _ v' acc, json_ok v' && acc) true d).
  apply (map_fold_weak_ind
           (λ r (m : gmap string pyval), r = true ↔ map_Forall (λ _ v, json_ok v = true) m)).
  - split; [intros _; apply map_Forall_empty | done].
  - intros k v m r Hk IH. rewrite map_Forall_insert by done.
    rewrite andb_true_iff. by rewrite IH.
Qed.

Lemma json_ok_list l : json_ok (VList l) = true ↔ Forall (λ v, json_ok v = true) l.
Proof.
  change (json_ok (VList l)) with (forallb json_ok l).
  induction l as [| v l IH]; simpl; [by split |].
  rewrite andb_true_iff, Forall_cons. by rewrite IH.
Qed.

Lemma json_ok_record f : jsonable f = true → json_ok (record f) = true.
Proof.
  unfold jsonable. rewrite !andb_true_iff. intros ((((H1 & H2) & H3) & H4) & H5).
  apply json_ok_dict. unfold task_dict.
  repeat (apply map_Forall_insert_2; [done |]). apply map_Forall_empty.
Qed.

Lemma valid_jsonable f : valid f = true → jsonable f = true.
Proof.
  unfold valid, jsonable. rewrite !andb_true_iff.
  intros ((((H1 & H2) & H3) & H4) & H5).
  repeat split;
    by match goal with |- json_ok ?v = true => destruct v end.
Qed.

Lemma to_dict_not_attr f : "to_dict" ∉ dom (instance f).
Proof.
  unfold instance. rewrite task_dict_dom. rewrite elem_of_list_to_set.
  intros H. repeat (apply elem_of_cons in H as [H | H]; [discriminate |]).
  by apply elem_of_nil in H.
Qed.

Lemma call_to_dict_Ret w l f :
  is_task w l f → call_method "to_dict" Task.to_dict l w = (Ret (record f), w).
Proof.
  intros Hl. unfold call_method.
  erewrite bind_Ret by (apply read_obj_Ret; exact Hl).
  rewrite bool_decide_eq_false_2 by apply to_dict_not_attr.
  by apply to_dict_Ret.
Qed.

Lemma for_each_to_dict w refs fl :
  Forall2 (is_task w) refs fl →
  for_each (call_method "to_dict" Task.to_dict) refs w = (Ret (record <$> fl), w).
Proof.
  induction 1 as [| l f refs fl Hl _ IH]; [done |]. simpl.
  erewrite bind_Ret by (by apply call_to_dict_Ret).
  erewrite bind_Ret by exact IH. done.
Qed.

Lemma is_task_set_fs g w l f : is_task (set_fs g w) l f ↔ is_task w l f.
Proof. done. Qed.

Lemma is_task_set_lsts g w l f : is_task (set_lsts g w) l f ↔ is_task w l f.
Proof. done. Qed.

(** [save_tasks] on a store whose tasks [json.dump] accepts: the file holds
    the records of the tasks, in order, and nothing else changes. *)
Lemma save_tasks_Ret w m refs fl :
  is_store w m refs fl →
  Forall (λ f, jsonable f = true) fl →
  TaskManager.filename m ∉ denied w →
  TaskManager.save_tasks m w
  = (Ret tt,
     set_fs (insert (TaskManager.filename m) (Document (VList (record <$> fl)))) w).
Proof.
  intros [Hm Hfl] Hjs Hfn. unfold TaskManager.save_tasks.
  erewrite bind_Ret; [| unfold open_write; by rewrite decide_False by done].
  erewrite bind_Ret by (by apply read_list_Ret).
  erewrite bind_Ret.
  2: { apply for_each_to_dict. eapply Forall2_impl; [exact Hfl |].
       intros l f. by rewrite is_task_set_fs. }
  unfold json_dump.
  assert (json_ok (VList (record <$> fl)) = true) as ->.
  { apply json_ok_list, Forall_fmap. eapply Forall_impl; [exact Hjs |].
    intros f. apply json_ok_record. }
  destruct w; unfold set_fs; simpl. by rewrite insert_insert_eq.
Qed.

(** C7: for an index outside [0 <= index < len(tasks)], [delete_task] and
    [update_task] (whatever fields it is given) return [False] without
    raising, and the world after is the world before: the list, the tasks
    and the files are all as they were. *)
Theorem out_of_range_returns_false object_attr w m refs index kwargs :
  lsts w !! TaskManager.tasks m = Some refs →
  ¬ (0 ≤ index < Z.of_nat (List.length refs)) →
  TaskManager.delete_task m index w = (Ret false, w)
  ∧ TaskManager.update_task object_attr m index kwargs w = (Ret false, w).
Proof.
  intros Hm Hi.
  assert (TaskManager.in_range index refs = false) as Hr.
  { unfold TaskManager.in_range. apply andb_false_iff.
    destruct (decide (0 ≤ index)); [right; apply Z.ltb_ge | left; apply Z.leb_gt]; lia. }
  unfold TaskManager.delete_task, TaskManager.update_task.
  erewrite !bind_Ret by (by apply read_list_Ret). by rewrite Hr.
Qed.

Lemma out_of_range_returns_false_witness :
  TaskManager.delete_task manager 2 two_tasks = (Ret false, two_tasks)
  ∧ TaskManager.update_task cpython_object_attr manager 2
      [("title", VStr "x")] two_tasks = (Ret false, two_tasks).
Proof.
  apply (out_of_range_returns_false cpython_object_attr two_tasks manager
           [1%positive; 2%positive] 2 [("title", VStr "x")]); [reflexivity | simpl; lia].
Defined.

(** ** Updating *)

Lemma hasattr_field oa w l f k :
  is_task w l f → k ∈ field_names → hasattr oa l k w = (Ret true, w).
Proof.
  intros Hl Hk. unfold hasattr. erewrite bind_Ret by (apply read_obj_Ret; exact Hl).
  unfold instance. rewrite task_dict_dom.
  rewrite (bool_decide_eq_true_2 (k ∈ _)); [done |].
  by apply elem_of_list_to_set.
Qed.

Lemma hasattr_other oa w l f k :
  is_task w l f → k ∉ field_names → k ∉ Task_class_names → oa k = false →
  hasattr oa l k w = (Ret false, w).
Proof.
  intros Hl Hk Hc Ho. unfold hasattr. erewrite bind_Ret by (apply read_obj_Ret; exact Hl).
  unfold instance. rewrite task_dict_dom.
  rewrite (bool_decide_eq_false_2 (k ∈ list_to_set _)), (bool_decide_eq_false_2 (k ∈ _)), Ho;
    [done | done |].
  by rewrite elem_of_list_to_set.
Qed.

(** Overwriting one field of an instance gives the instance with that field
    changed. *)
Lemma insert_instance k v f :
  (k = "title" → <[k := v]> (instance f)
     = instance (Fields v (description f) (due_date f) (priority f) (status f)
                        (created_at f) (completed_at f)))
  ∧ (k = "description" → <[k := v]> (instance f)
     = instance (Fields (title f) v (due_date f) (priority f) (status f)
                        (created_at f) (completed_at f)))
  ∧ (k = "due_date" → <[k := v]> (instance f)
     = instance (Fields (title f) (description f) v (priority f) (status f)
                        (created_at f) (completed_at f)))
  ∧ (∀ p, k = "priority" → v = VPriority p → <[k := v]> (instance f)
     = instance (Fields (title f) (description f) (due_date f) p (status f)
                        (created_at f) (completed_at f)))
  ∧ (∀ s, k = "status" → v = VStatus s → <[k := v]> (instance f)
     = instance (Fields (title f) (description f) (due_date f) (priority f) s
                        (created_at f) (completed_at f)))
  ∧ (k = "created_at" → <[k := v]> (instance f)
     = instance (Fields (title f) (description f) (due_date f) (priority f) (status f)
                        v (completed_at f)))
  ∧ (k = "completed_at" → <[k := v]> (instance f)
     = instance (Fields (title f) (description f) (due_date f) (priority f) (status f)
                        (created_at f) v)).
Proof.
  unfold instance, task_dict; simpl.
  repeat split; intros; subst; apply map_eq; intros k';
    rewrite !lookup_insert; repeat case_decide; congruence.
Qed.

Lemma is_task_at w l f : is_task (set_objs (insert l (instance f)) w) l f.
Proof. unfold is_task. by rewrite objs_set_objs, lookup_insert_eq. Qed.

Ltac run_hasattr_field :=
  erewrite bind_Ret by (eapply hasattr_field; [apply is_task_at | repeat constructor]).

Ltac plain_field lem :=
  let Hv := fresh in
  destruct (json_ok _) eqn:Hv; [| done]; intros [= <-];
  unfold TaskManager.update_field; run_hasattr_field;
  repeat (rewrite decide_False by discriminate);
  rewrite setattr_at by field_name;
  by rewrite lem.

Lemma update_field_Ret oa w l f kv f' :
  field_update oa kv f = Some f' →
  TaskManager.update_field oa l kv (set_objs (insert l (instance f)) w)
  = (Ret tt, set_objs (insert l (instance f')) w).
Proof.
  destruct kv as [k v]. unfold field_update.
  destruct (insert_instance k v f) as (H1 & H2 & H3 & _ & _ & H6 & H7).
  destruct (decide (k = "title")) as [-> | N1]; [plain_field H1 |].
  destruct (decide (k = "description")) as [-> | N2]; [plain_field H2 |].
  destruct (decide (k = "due_date")) as [-> | N3]; [plain_field H3 |].
  destruct (decide (k = "priority")) as [-> | N4].
  { destruct v as [| | | s | | | |]; try done.
    destruct (Priority_by_name (Str.upper s)) as [p |] eqn:Hp; [| done]. intros [= <-].
    unfold TaskManager.update_field. run_hasattr_field.
    rewrite decide_True by done.
    erewrite bind_lift_Ret by reflexivity. erewrite bind_lift_Ret by exact Hp.
    rewrite setattr_at by field_name.
    destruct (insert_instance "priority" (VPriority p) f) as (_ & _ & _ & H4 & _).
    by rewrite (H4 p). }
  destruct (decide (k = "status")) as [-> | N5].
  { destruct (Status_call v) as [s |] eqn:Hs; [| done]. intros [= <-].
    unfold TaskManager.update_field. run_hasattr_field.
    rewrite decide_False by done. rewrite decide_True by done.
    erewrite bind_lift_Ret by exact Hs.
    rewrite setattr_at by field_name.
    destruct (insert_instance "status" (VStatus s) f) as (_ & _ & _ & _ & H5 & _).
    by rewrite (H5 s). }
  destruct (decide (k = "created_at")) as [-> | N6]; [plain_field H6 |].
  destruct (decide (k = "completed_at")) as [-> | N7]; [plain_field H7 |].
  destruct (bool_decide (k ∈ Task_class_names) || oa k) eqn:Hk; [done |].
  intros [= <-]. apply orb_false_iff in Hk as [Hc Ho].
  apply bool_decide_eq_false in Hc.
  assert (k ∉ field_names) as Hf.
  { unfold field_names. intros H.
    repeat (apply elem_of_cons in H as [H | H]; [done |]). by apply elem_of_nil in H. }
  unfold TaskManager.update_field.
  by erewrite bind_Ret by (eapply hasattr_other; [apply is_task_at | done ..]).
Qed.

Lemma for_update_Ret oa w l kwargs : ∀ f f',
  field_updates oa kwargs f = Some f' →
  for_ kwargs (TaskManager.update_field oa l) (set_objs (insert l (instance f)) w)
  = (Ret tt, set_objs (insert l (instance f')) w).
Proof.
  induction kwargs as [| kv kwargs IH]; intros f f'; simpl.
  - by intros [= <-].
  - destruct (field_update oa kv f) as [f1 |] eqn:H1; [| done]. intros Hrest.
    erewrite bind_Ret by (by apply update_field_Ret). by apply IH.
Qed.

Lemma field_update_jsonable oa kv f f' :
  field_update oa kv f = Some f' → jsonable f = true → jsonable f' = true.
Proof.
  destruct kv as [k v]. unfold field_update, jsonable. rewrite !andb_true_iff.
  intros Hu ((((H1 & H2) & H3) & H4) & H5).
  repeat case_decide;
    repeat match type of Hu with
           | (if ?b then _ else _) = _ => destruct b eqn:?; [| done]
           | match ?x with _ => _ end = _ => destruct x eqn:?; try done
           end;
    try discriminate Hu;
    try (injection Hu as <-; simpl; by repeat split).
Qed.

Lemma field_updates_jsonable oa kwargs : ∀ f f',
  field_updates oa kwargs f = Some f' → jsonable f = true → jsonable f' = true.
Proof.
  induction kwargs as [| kv kwargs IH]; intros f f'; simpl.
  - by intros [= <-].
  - destruct (field_update oa kv f) as [f1 |] eqn:H1; [| done].
    intros Hrest Hf. eapply IH; [done |]. by eapply field_update_jsonable.
Qed.

Lemma retarget_store w task f' refs fl :
  Forall2 (is_task w) refs fl →
  Forall2 (is_task (set_objs (insert task (instance f')) w)) refs (retarget task f' refs fl).
Proof.
  unfold retarget. induction 1 as [| r f refs fl Hr _ IH]; simpl; constructor; [| done].
  unfold is_task in *. rewrite objs_set_objs. case_decide as Hrt.
  - subst. apply lookup_insert_eq.
  - by rewrite lookup_insert_ne.
Qed.

Lemma retarget_jsonable task f' refs fl :
  jsonable f' = true → Forall (λ f, jsonable f = true) fl →
  Forall (λ f, jsonable f = true) (retarget task f' refs fl).
Proof.
  intros Hf' Hfl. unfold retarget. revert refs.
  induction Hfl as [| f fl Hf _ IH]; intros [| r refs]; simpl; constructor; [| by apply IH].
  by case_decide.
Qed.

Lemma set_objs_id w l o : objs w !! l = Some o → set_objs (insert l o) w = w.
Proof. intros H. destruct w; unfold set_objs; simpl in *. by rewrite insert_id. Qed.

Lemma for_update_task oa w l f kwargs f' :
  is_task w l f →
  field_updates oa kwargs f = Some f' →
  for_ kwargs (TaskManager.update_field oa l) w
  = (Ret tt, set_objs (insert l (instance f')) w).
Proof.
  intros Hl Hu. rewrite <- (for_update_Ret oa w l kwargs f f' Hu).
  by rewrite set_objs_id.
Qed.

Lemma in_range_true index refs :
  0 ≤ index < Z.of_nat (List.length refs) → TaskManager.in_range index refs = true.
Proof.
  intros [H1 H2]. unfold TaskManager.in_range.
  apply andb_true_iff. split; [by apply Z.leb_le | by apply Z.ltb_lt].
Qed.

(** [update_task] at an index in range, with fields [field_updates] covers:
    the task gets the new fields, the file gets the records of the store, and
    the answer is [True]. *)
Lemma update_task_Ret oa w m refs fl index task f kwargs f' :
  is_store w m refs fl →
  0 ≤ index < Z.of_nat (List.length refs) →
  refs !! Z.to_nat index = Some task →
  fl !! Z.to_nat index = Some f →
  field_updates oa kwargs f = Some f' →
  Forall (λ f, jsonable f = true) fl →
  TaskManager.filename m ∉ denied w →
  TaskManager.update_task oa m index kwargs w
  = (Ret true,
     set_fs (insert (TaskManager.filename m)
                    (Document (VList (record <$> retarget task f' refs fl))))
            (set_objs (insert task (instance f')) w)).
Proof.
  intros [Hm Hfl] Hi Hr Hf Hu Hjs Hfn.
  assert (is_task w task f) as Hl by (by eapply Forall2_lookup_lr).
  unfold TaskManager.update_task.
  erewrite bind_Ret by (by apply read_list_Ret).
  rewrite in_range_true by done. rewrite Hr.
  erewrite bind_Ret by (by eapply for_update_task).
  erewrite bind_Ret; [done |].
  apply (save_tasks_Ret _ m refs (retarget task f' refs fl)); [| | done].
  - split; [done |]. by apply retarget_store.
  - apply retarget_jsonable; [| done].
    eapply field_updates_jsonable; [done |].
    by eapply Forall_lookup_1 in Hjs.
Qed.

Lemma mark_complete_Ret w l o :
  objs w !! l = Some o →
  Task.mark_complete l w
  = (Ret tt,
     set_objs (insert l (<["completed_at" := VStr (clock w)]>
                         (<["status" := VStatus COMPLETED]> o))) w).
Proof.
  intros Hl. unfold Task.mark_complete.
  rewrite <- (set_objs_id w l o Hl) at 1.
  run_setattr. erewrite bind_Ret by apply now_at.
  apply setattr_at; field_name.
Qed.

(** C3: the two ways to complete a task differ.  [mark_complete] on any task
    sets its [status] to [COMPLETED] and its [completed_at] to the current
    time, a string; [update_task] with [status="Completed"] at an index in
    range returns [True] and sets the [status] of that task to [COMPLETED],
    and its [completed_at] is what it was before ([None] if it was [None]). *)
Theorem mark_complete_sets_completed_at_update_does_not
    object_attr w l o m refs fl index task f :
  objs w !! l = Some o →
  is_store w m refs fl →
  0 ≤ index < Z.of_nat (List.length refs) →
  refs !! Z.to_nat index = Some task →
  fl !! Z.to_nat index = Some f →
  Forall (λ f, jsonable f = true) fl →
  TaskManager.filename m ∉ denied w →
  (∃ w' o',
      Task.mark_complete l w = (Ret tt, w')
      ∧ objs w' !! l = Some o'
      ∧ o' !! "status" = Some (VStatus COMPLETED)
      ∧ o' !! "completed_at" = Some (VStr (clock w)))
  ∧ (∃ w' o',
      TaskManager.update_task object_attr m index [("status", VStr "Completed")] w
      = (Ret true, w')
      ∧ objs w !! task = Some (instance f)
      ∧ objs w' !! task = Some o'
      ∧ o' !! "status" = Some (VStatus COMPLETED)
      ∧ o' !! "completed_at" = Some (completed_at f)
      ∧ (completed_at f = VNone → o' !! "completed_at" = Some VNone)).
Proof.
  intros Hl Hst Hi Hr Hf Hjs Hfn. split.
  - eexists _, _. split; [by apply mark_complete_Ret |].
    rewrite objs_set_objs, lookup_insert_eq. split; [done |].
    by rewrite lookup_insert_eq, lookup_insert_ne, lookup_insert_eq.
  - eexists _, _. split.
    { eapply (update_task_Ret _ _ _ _ _ _ _ f); [done .. | reflexivity | done | done]. }
    split; [destruct Hst as [_ Hfl]; change (is_task w task f); by eapply Forall2_lookup_lr |].
    split; [by rewrite objs_set_fs, objs_set_objs, lookup_insert_eq |].
    match goal with |- instance ?g !! _ = _ ∧ _ =>
      destruct (task_dict_lookup (title g) (description g) (due_date g)
                  (VPriority (priority g)) (VStatus (status g)) (created_at g) (completed_at g))
        as (_ & _ & _ & _ & Hs & _ & Hc)
    end.
    split; [exact Hs |]. split; [exact Hc |]. by intros <-.
Qed.

Lemma mark_complete_sets_completed_at_update_does_not_witness :
  (∃ w' o',
      Task.mark_complete 1%positive two_tasks = (Ret tt, w')
      ∧ objs w' !! 1%positive = Some o'
      ∧ o' !! "status" = Some (VStatus COMPLETED)
      ∧ o' !! "completed_at" = Some (VStr (clock two_tasks)))
  ∧ (∃ w' o',
      TaskManager.update_task cpython_object_attr manager 0 [("status", VStr "Completed")]
        two_tasks
      = (Ret true, w')
      ∧ objs two_tasks !! 1%positive = Some (instance plan)
      ∧ objs w' !! 1%positive = Some o'
      ∧ o' !! "status" = Some (VStatus COMPLETED)
      ∧ o' !! "completed_at" = Some (completed_at plan)
      ∧ (completed_at plan = VNone → o' !! "completed_at" = Some VNone)).
Proof.
  apply (mark_complete_sets_completed_at_update_does_not cpython_object_attr two_tasks
           1%positive (instance plan) manager [1%positive; 2%positive] [plan; milk] 0
           1%positive plan).
  - reflexivity.
  - split; [reflexivity | repeat constructor].
  - simpl; lia.
  - reflexivity.
  - reflexivity.
  - repeat constructor.
  - apply not_elem_of_empty.
Defined.

(** ** The fields after an update *)

Lemma field_names_dom f : dom (instance f) = list_to_set field_names.
Proof. unfold instance, field_names. by rewrite task_dict_dom. Qed.

Lemma not_field_lookup f k : k ∉ field_names → instance f !! k = None.
Proof.
  intros Hk. apply not_elem_of_dom. rewrite field_names_dom.
  by rewrite elem_of_list_to_set.
Qed.

Ltac not_a_field :=
  let H := fresh in
  unfold field_names; intros H;
  repeat (apply elem_of_cons in H as [H | H]; [done |]); by apply elem_of_nil in H.

(** One step of [field_updates] on the attribute dictionary: a name that is
    no field leaves it alone, a field is overwritten. *)
Lemma field_update_dict oa k v f f' :
  field_update oa (k, v) f = Some f' →
  ((k ∉ field_names) ∧ f' = f)
  ∨ (k ∈ field_names
     ∧ ∃ x, instance f' = <[k := x]> (instance f)
            ∧ (k = "priority" →
                 ∃ s p, v = VStr s ∧ Priority_by_name (Str.upper s) = Ret p ∧ x = VPriority p)
            ∧ (k = "status" → ∃ s, Status_call v = Ret s ∧ x = VStatus s)
            ∧ (k ≠ "priority" → k ≠ "status" → x = v)).
Proof.
  unfold field_update.
  destruct (insert_instance k v f) as (H1 & H2 & H3 & _ & _ & H6 & H7).
  destruct (decide (k = "title")) as [-> | N1].
  { destruct (json_ok v); [| done]. intros [= <-]. right.
    split; [repeat constructor |]. exists v. by rewrite H1. }
  destruct (decide (k = "description")) as [-> | N2].
  { destruct (json_ok v); [| done]. intros [= <-]. right.
    split; [repeat constructor |]. exists v. by rewrite H2. }
  destruct (decide (k = "due_date")) as [-> | N3].
  { destruct (json_ok v); [| done]. intros [= <-]. right.
    split; [repeat constructor |]. exists v. by rewrite H3. }
  destruct (decide (k = "priority")) as [-> | N4].
  { destruct v as [| | | s | | | |]; try done.
    destruct (Priority_by_name (Str.upper s)) as [p |] eqn:Hp; [| done]. intros [= <-].
    right. split; [repeat constructor |]. exists (VPriority p).
    destruct (insert_instance "priority" (VPriority p) f) as (_ & _ & _ & H4 & _).
    rewrite (H4 p) by done. split; [done |]. split; [by eexists _, _ |]. done. }
  destruct (decide (k = "status")) as [-> | N5].
  { destruct (Status_call v) as [s |] eqn:Hs; [| done]. intros [= <-].
    right. split; [repeat constructor |]. exists (VStatus s).
    destruct (insert_instance "status" (VStatus s) f) as (_ & _ & _ & _ & H5 & _).
    rewrite (H5 s) by done. split; [done |]. split; [done |]. split; [by eexists |]. done. }
  destruct (decide (k = "created_at")) as [-> | N6].
  { destruct (json_ok v); [| done]. intros [= <-]. right.
    split; [repeat constructor |]. exists v. by rewrite H6. }
  destruct (decide (k = "completed_at")) as [-> | N7].
  { destruct (json_ok v); [| done]. intros [= <-]. right.
    split; [repeat constructor |]. exists v. by rewrite H7. }
  destruct (bool_decide (k ∈ Task_class_names) || oa k); [done |].
  intros [= <-]. left. split; [| done]. not_a_field.
Qed.

Lemma field_update_other oa k v f f' k' :
  field_update oa (k, v) f = Some f' → k' ≠ k → instance f' !! k' = instance f !! k'.
Proof.
  intros Hu Hk. destruct (field_update_dict _ _ _ _ _ Hu) as [[_ ->] | (_ & x & -> & _)];
    [done |]. by rewrite lookup_insert_ne.
Qed.

Lemma field_update_stored oa k v f f' :
  field_update oa (k, v) f = Some f' → stored_as k v (instance f').
Proof.
  intros Hu. destruct (field_update_dict _ _ _ _ _ Hu) as [[Hk ->] | (Hk & x & -> & Hp & Hs & Ho)].
  - repeat split.
    + intros ->. destruct Hk. repeat constructor.
    + intros ->. destruct Hk. repeat constructor.
    + done.
    + intros _. by apply not_field_lookup.
  - unfold stored_as. rewrite lookup_insert_eq. repeat split.
    + intros E. destruct (Hp E) as (s & p & -> & Hn & ->). by eexists _, _.
    + intros E. destruct (Hs E) as (s & Hc & ->). by eexists.
    + intros _ E1 E2. by rewrite (Ho E1 E2).
    + done.
Qed.

Lemma stored_as_ext k v o o' : o' !! k = o !! k → stored_as k v o → stored_as k v o'.
Proof. unfold stored_as. by intros ->. Qed.

Lemma field_updates_other oa kwargs : ∀ f f' k,
  field_updates oa kwargs f = Some f' → k ∉ kwargs.*1 →
  instance f' !! k = instance f !! k.
Proof.
  induction kwargs as [| [k0 v0] kwargs IH]; intros f f' k; simpl.
  - by intros [= <-].
  - destruct (field_update oa (k0, v0) f) as [f1 |] eqn:H1; [| done].
    intros Hrest Hk. apply not_elem_of_cons in Hk as [Hk0 Hk].
    rewrite (IH _ _ _ Hrest Hk). by eapply field_update_other.
Qed.

Lemma field_updates_stored oa kwargs : ∀ f f' k v,
  field_updates oa kwargs f = Some f' → NoDup kwargs.*1 → (k, v) ∈ kwargs →
  stored_as k v (instance f').
Proof.
  induction kwargs as [| [k0 v0] kwargs IH]; intros f f' k v; simpl.
  - intros _ _ H. by apply elem_of_nil in H.
  - destruct (field_update oa (k0, v0) f) as [f1 |] eqn:H1; [| done].
    intros Hrest Hnd Hin. apply NoDup_cons in Hnd as [Hk0 Hnd].
    apply elem_of_cons in Hin as [[= -> ->] | Hin].
    + eapply stored_as_ext; [by eapply field_updates_other |].
      by eapply field_update_stored.
    + by eapply IH.
Qed.

Lemma accepted_field_update oa kv f :
  accepted oa kv = true → is_Some (field_update oa kv f).
Proof.
  destruct kv as [k v]. unfold accepted, field_update.
  destruct (decide (k = "priority")) as [-> | N4].
  { repeat (rewrite decide_False by done).
    destruct v; try done. by destruct (Priority_by_name _). }
  destruct (decide (k = "status")) as [-> | N5].
  { repeat (rewrite decide_False by done).
    by destruct (Status_call v). }
  destruct (bool_decide (k ∈ field_names)) eqn:Hf.
  - intros ->. apply bool_decide_eq_true in Hf. unfold field_names in Hf.
    repeat (apply elem_of_cons in Hf as [-> | Hf]; [first [done | by eexists] |]).
    by apply elem_of_nil in Hf.
  - apply bool_decide_eq_false in Hf. intros Hn%negb_true_iff. rewrite Hn.
    repeat (rewrite decide_False; [| intros ->; destruct Hf; repeat constructor]).
    by eexists.
Qed.

Lemma accepted_field_updates oa kwargs : ∀ f,
  Forall (λ kv, accepted oa kv = true) kwargs → is_Some (field_updates oa kwargs f).
Proof.
  induction kwargs as [| kv kwargs IH]; intros f Hall; simpl; [done |].
  apply Forall_cons in Hall as [Hkv Hall].
  destruct (accepted_field_update oa kv f Hkv) as [f1 ->]. by apply IH.
Qed.

(** C6, as the claim states it, fails: [update_task] at an index in range
    does not return [True] for every field map.  With [priority="urgent"] the
    lookup [Priority["URGENT"]] raises [KeyError], which [update_task] lets
    through; nothing is saved. *)
Lemma update_task_unknown_priority_raises :
  is_store two_tasks manager [1%positive; 2%positive] [plan; milk]
  ∧ TaskManager.in_range 0 [1%positive; 2%positive] = true
  ∧ TaskManager.update_task cpython_object_attr manager 0 [("priority", VStr "urgent")]
      two_tasks
    = (Raise KeyError, two_tasks).
Proof.
  split; [split; [reflexivity | repeat constructor] |]. split; reflexivity.
Qed.

(** C6, amended: at an index in range, for keyword arguments that are each
    one of
    - [priority] with a string whose upper-case form is [LOW], [MEDIUM] or
      [HIGH],
    - [status] with one of the strings [Pending], [In Progress],
      [Completed] (or a member of [Status]),
    - another field of the task with a value [json] can write,
    - a name that is no attribute of the task,
    [update_task] returns [True]; the task then has, under each supplied
    field, the member so named (for [priority] and [status]) or the value
    given (for the other fields); a supplied name that is no attribute is not
    added; every attribute not supplied is as before; the list of the
    store is as before. *)
Theorem update_task_overwrites_supplied_fields
    object_attr w m refs fl index task f kwargs :
  is_store w m refs fl →
  0 ≤ index < Z.of_nat (List.length refs) →
  refs !! Z.to_nat index = Some task →
  fl !! Z.to_nat index = Some f →
  NoDup kwargs.*1 →
  Forall (λ kv, accepted object_attr kv = true) kwargs →
  Forall (λ f, jsonable f = true) fl →
  TaskManager.filename m ∉ denied w →
  ∃ w' f',
    TaskManager.update_task object_attr m index kwargs w = (Ret true, w')
    ∧ is_task w' task f'
    ∧ lsts w' !! TaskManager.tasks m = Some refs
    ∧ (∀ k v, (k, v) ∈ kwargs → stored_as k v (instance f'))
    ∧ (∀ k, k ∉ kwargs.*1 → instance f' !! k = instance f !! k).
Proof.
  intros Hst Hi Hr Hf Hnd Hacc Hjs Hfn.
  destruct (accepted_field_updates object_attr kwargs f Hacc) as [f' Hu].
  eexists _, f'. split; [by eapply update_task_Ret |].
  split; [unfold is_task; by rewrite objs_set_fs, objs_set_objs, lookup_insert_eq |].
  split; [by destruct Hst |].
  split.
  - intros k v Hin. by eapply field_updates_stored.
  - intros k Hk. by eapply field_updates_other.
Qed.

Lemma update_task_overwrites_supplied_fields_witness :
  ∃ w' f',
    TaskManager.update_task cpython_object_attr manager 1
      [("priority", VStr "low"); ("status", VStr "In Progress");
       ("title", VStr "Buy oat milk"); ("colour", VStr "red")] two_tasks
    = (Ret true, w')
    ∧ is_task w' 2%positive f'
    ∧ lsts w' !! TaskManager.tasks manager = Some [1%positive; 2%positive]
    ∧ (∀ k v, (k, v) ∈ [("priority", VStr "low"); ("status", VStr "In Progress");
                         ("title", VStr "Buy oat milk"); ("colour", VStr "red")] →
              stored_as k v (instance f'))
    ∧ (∀ k, k ∉ [("priority", VStr "low"); ("status", VStr "In Progress");
                 ("title", VStr "Buy oat milk"); ("colour", VStr "red")].*1 →
            instance f' !! k = instance milk !! k).
Proof.
  apply (update_task_overwrites_supplied_fields cpython_object_attr two_tasks manager
           [1%positive; 2%positive] [plan; milk] 1 2%positive milk).
  - split; [reflexivity | repeat constructor].
  - simpl; lia.
  - reflexivity.
  - reflexivity.
  - apply (bool_decide_unpack _). by vm_compute.
  - repeat constructor.
  - repeat constructor.
  - apply not_elem_of_empty.
Defined.

(** The front end calls [update_task] with the members it read from the
    menu, not with strings: [Priority.HIGH.upper()] raises
    [AttributeError]. *)
Example update_task_priority_member_raises :
  TaskManager.update_task cpython_object_attr manager 0
    [("title", VStr "project-alpha-plan"); ("description", VStr ""); ("due_date", VNone);
     ("priority", VPriority HIGH); ("status", VStatus PENDING)] two_tasks
  = (Raise AttributeError, two_tasks).
Proof. reflexivity. Qed.

(** ** Listing *)

Lemma status_lookup f : instance f !! "status" = Some (VStatus (status f)).
Proof.
  by destruct (task_dict_lookup (title f) (description f) (due_date f)
                 (VPriority (priority f)) (VStatus (status f)) (created_at f)
                 (completed_at f)) as (_ & _ & _ & _ & Hs & _).
Qed.

Lemma for_each_if_status w st refs fl :
  Forall2 (is_task w) refs fl →
  for_each_if (λ task, s <- getattr task "status" ;; ret (TaskManager.status_eq s st)) refs w
  = (Ret (with_status st refs fl), w).
Proof.
  unfold with_status. induction 1 as [| l f refs fl Hl _ IH]; [done |].
  cbn [for_each_if zip zip_with].
  erewrite bind_Ret.
  2: { erewrite bind_Ret by (eapply getattr_Ret; [exact Hl | apply status_lookup]). done. }
  erewrite bind_Ret by exact IH. rewrite filter_cons. simpl.
  unfold ret. by case_decide; [rewrite bool_decide_eq_true_2 | rewrite bool_decide_eq_false_2].
Qed.

(** C2: the claim holds of [list_tasks] with a filter and fails without
    one.  On the store of [plan] and [milk], [list_tasks()] hands out the
    list object of the store itself, and appending the second task to what
    it returned appends it to the store, which then holds three entries.  On
    the same store [list_tasks] with a status, and [search_tasks], return a
    list object that is not the one of the store. *)
Lemma list_tasks_without_filter_aliases_store :
  ∃ l w1 w2,
    is_store two_tasks manager [1%positive; 2%positive] [plan; milk]
    ∧ TaskManager.list_tasks manager None two_tasks = (Ret l, w1)
    ∧ list_append l 2%positive w1 = (Ret tt, w2)
    ∧ lsts two_tasks !! TaskManager.tasks manager = Some [1%positive; 2%positive]
    ∧ lsts w2 !! TaskManager.tasks manager = Some [1%positive; 2%positive; 2%positive]
    ∧ (∃ l' w', TaskManager.list_tasks manager (Some COMPLETED) two_tasks = (Ret l', w')
                ∧ l' ≠ TaskManager.tasks manager)
    ∧ (∃ l' w', TaskManager.search_tasks manager "milk" two_tasks = (Ret l', w')
                ∧ l' ≠ TaskManager.tasks manager).
Proof.
  eexists _, _, _. split; [split; [reflexivity | repeat constructor] |].
  split; [reflexivity |]. split; [reflexivity |]. split; [reflexivity |].
  split; [reflexivity |].
  split; eexists _, _; (split; [reflexivity | done]).
Qed.

(** X17: [list_tasks] returns, without raising, a list that holds exactly the
    tasks of the store whose status is the filter, in the order of the store
    (all of them without a filter; none, and no error, when no task has that
    status), and leaves the store as it was.  With a filter the list is a
    new list object, so whatever is written to it the list of the store
    stays as it is; without a filter it is the list object of the store
    itself. *)
Theorem list_tasks_selects_by_status w m refs fl filter_status :
  is_store w m refs fl →
  ∃ l w',
    TaskManager.list_tasks m filter_status w = (Ret l, w')
    ∧ lsts w' !! l = Some (listed filter_status refs fl)
    ∧ is_store w' m refs fl
    ∧ match filter_status with
      | Some st =>
          lsts w !! l = None
          ∧ l ≠ TaskManager.tasks m
          ∧ (∀ i r, listed (Some st) refs fl !! i = Some r →
                    ∃ f, is_task w r f ∧ status f = st)
          ∧ (∀ refs', ∃ w'',
               write_list l refs' w' = (Ret tt, w'')
               ∧ lsts w'' !! TaskManager.tasks m = Some refs)
      | None => l = TaskManager.tasks m ∧ w' = w
      end.
Proof.
  intros [Hm Hfl]. destruct filter_status as [st |]; simpl.
  - eexists _, _. split.
    { erewrite bind_Ret by (by apply read_list_Ret).
      erewrite bind_Ret by (by apply for_each_if_status). reflexivity. }
    assert (fresh (dom (lsts w)) ≠ TaskManager.tasks m) as Hne.
    { intros Heq. by rewrite <- Heq, fresh_list in Hm. }
    rewrite lsts_set_lsts, lookup_insert_eq. split; [done |].
    split; [split; [by rewrite lsts_set_lsts, lookup_insert_ne | done] |].
    split; [apply fresh_list |]. split; [done |]. split.
    + unfold with_status. intros i r Hi.
      apply list_lookup_fmap_Some in Hi as ([r' f] & -> & Hi).
      apply list_elem_of_lookup_2, list_elem_of_filter in Hi as [Hs Hin].
      apply list_elem_of_lookup in Hin as [j Hj].
      apply lookup_zip_with_Some in Hj as (r0 & f0 & [= -> ->] & Hr & Hf).
      exists f0. split; [by eapply Forall2_lookup_lr | done].
    + intros refs'. eexists. split; [reflexivity |].
      by rewrite !lsts_set_lsts, !lookup_insert_ne.
  - eexists _, _. by repeat split.
Qed.

Lemma list_tasks_selects_by_status_witness :
  ∃ l w',
    TaskManager.list_tasks manager (Some COMPLETED) two_tasks = (Ret l, w')
    ∧ lsts w' !! l = Some (listed (Some COMPLETED) [1%positive; 2%positive] [plan; milk])
    ∧ is_store w' manager [1%positive; 2%positive] [plan; milk]
    ∧ lsts two_tasks !! l = None
    ∧ l ≠ TaskManager.tasks manager
    ∧ (∀ i r, listed (Some COMPLETED) [1%positive; 2%positive] [plan; milk] !! i = Some r →
              ∃ f, is_task two_tasks r f ∧ status f = COMPLETED)
    ∧ (∀ refs', ∃ w'',
         write_list l refs' w' = (Ret tt, w'')
         ∧ lsts w'' !! TaskManager.tasks manager = Some [1%positive; 2%positive]).
Proof.
  apply (list_tasks_selects_by_status two_tasks manager [1%positive; 2%positive]
           [plan; milk] (Some COMPLETED)).
  split; [reflexivity | repeat constructor].
Defined.

(** ** Searching *)

Lemma all_chars_complete c : c ∈ all_chars.
Proof.
  unfold all_chars. rewrite <- (ascii_nat_embedding c).
  apply list_elem_of_fmap. exists (nat_of_ascii c). split; [done |].
  apply elem_of_seq. split; [lia |]. simpl. apply nat_ascii_bounded.
Qed.

Lemma lower_agrees_all :
  forallb (λ a, forallb (lower_agrees a) all_chars) all_chars = true.
Proof. by vm_compute. Qed.

(** [str.lower] sends two characters to one exactly when they are the same
    letter. *)
Lemma same_letter_lower a b : same_letter a b ↔ Str.lower_char a = Str.lower_char b.
Proof.
  pose proof lower_agrees_all as H.
  rewrite forallb_forall in H. specialize (H a).
  rewrite <- list_elem_of_In in H. specialize (H (all_chars_complete a)).
  rewrite forallb_forall in H. specialize (H b).
  rewrite <- list_elem_of_In in H. specialize (H (all_chars_complete b)).
  by apply bool_decide_eq_true in H.
Qed.

Lemma same_text_lower s : ∀ t, same_text s t ↔ Str.lower s = Str.lower t.
Proof.
  induction s as [| a s IH]; intros [| b t]; simpl; try (split; [done | discriminate]).
  - done.
  - rewrite IH, same_letter_lower. split; [by intros [-> ->] | by intros [= -> ->]].
Qed.

Lemma append_empty s : "" +:+ s = s.
Proof. done. Qed.

Lemma append_String c s t : String c s +:+ t = String c (s +:+ t).
Proof. done. Qed.

Lemma lower_app s t : Str.lower (s +:+ t) = Str.lower s +:+ Str.lower t.
Proof.
  induction s as [| a s IH]; [done |].
  rewrite append_String. simpl. by rewrite IH, append_String.
Qed.

(** A string whose lower-case form splits in two splits in two itself. *)
Lemma lower_split s : ∀ x y,
  Str.lower s = x +:+ y → ∃ a b, s = a +:+ b ∧ Str.lower a = x ∧ Str.lower b = y.
Proof.
  induction s as [| c s IH]; intros x y; simpl.
  - destruct x; [| discriminate]. rewrite append_empty. intros <-. by exists "", "".
  - destruct x as [| c' x].
    + rewrite append_empty. intros <-. by exists "", (String c s).
    + rewrite append_String. intros [= <- Hs].
      destruct (IH _ _ Hs) as (a & b & -> & <- & <-).
      by exists (String c a), b.
Qed.

Lemma startswith_prefix p : ∀ s, Str.startswith p s = true ↔ ∃ post, s = p +:+ post.
Proof.
  induction p as [| a p IH]; intros s; simpl.
  - split; [intros _; by exists s | done].
  - destruct s as [| b s].
    + split; [done | by intros [post ?]].
    + rewrite andb_true_iff, bool_decide_eq_true, IH. split.
      * intros [-> [post ->]]. by exists post.
      * intros [post [= -> ->]]. split; [done | by exists post].
Qed.

Lemma contains_infix needle : ∀ hay,
  Str.contains needle hay = true ↔ ∃ pre post, hay = pre +:+ needle +:+ post.
Proof.
  induction hay as [| c hay IH].
  - simpl. rewrite orb_false_r, startswith_prefix. split.
    + intros [post ->]. by exists "", post.
    + intros (pre & post & H). destruct pre; [by exists post | discriminate].
  - change (Str.contains needle (String c hay))
      with (Str.startswith needle (String c hay) || Str.contains needle hay).
    rewrite orb_true_iff, startswith_prefix, IH. split.
    + intros [[post ->] | (pre & post & ->)]; [by exists "", post |].
      by exists (String c pre), post.
    + intros ([| c' pre] & post & H); [left; by exists post |].
      right. rewrite append_String in H. injection H as -> ->. by exists pre, post.
Qed.

(** The test of [search_tasks] on one string is the occurrence of the
    keyword in it, case ignored. *)
Lemma contains_lower_occurs keyword s :
  Str.contains (Str.lower keyword) (Str.lower s) = true ↔ occurs_in keyword s.
Proof.
  rewrite contains_infix. unfold occurs_in. split.
  - intros (x & y & H).
    destruct (lower_split _ _ _ H) as (pre & rest & -> & <- & H2).
    destruct (lower_split _ _ _ H2) as (mid & post & -> & Hmid & <-).
    exists pre, mid, post. split; [done |]. by apply same_text_lower.
  - intros (pre & mid & post & -> & Hs%same_text_lower).
    exists (Str.lower pre), (Str.lower post). by rewrite !lower_app, Hs.
Qed.

Lemma hit_mentions keyword f : hit keyword f = true ↔ mentions keyword f.
Proof.
  unfold hit, mentions. rewrite orb_true_iff. split.
  - intros [H | H]; [left | right].
    + destruct (title f) as [| | | t | | | |]; try done.
      exists t. by rewrite <- contains_lower_occurs.
    + destruct (description f) as [| | | d | | | |]; try done.
      exists d. by rewrite <- contains_lower_occurs.
  - intros [(t & -> & H) | (d & -> & H)]; [left | right]; by apply contains_lower_occurs.
Qed.

#[global] Instance mentions_dec keyword f : Decision (mentions keyword f).
Proof.
  refine (cast_if (decide (hit keyword f = true))); by rewrite <- hit_mentions.
Defined.

(** The references of the store whose task mentions [keyword], in the order
    of the store. *)
Definition matching (keyword : string) (refs : list loc) (fl : list fields) : list loc :=
  (filter (λ rf, mentions keyword rf.2) (zip refs fl)).*1.

Lemma valid_strings f :
  valid f = true → ∃ t d, title f = VStr t ∧ description f = VStr d.
Proof.
  unfold valid. rewrite !andb_true_iff. intros ((((H1 & H2) & _) & _) & _).
  destruct (title f); try done. destruct (description f); try done. by eexists _, _.
Qed.

Lemma matches_Ret w l f keyword :
  is_task w l f → valid f = true →
  TaskManager.matches (Str.lower keyword) l w = (Ret (hit keyword f), w).
Proof.
  intros Hl Hv. destruct (valid_strings f Hv) as (t & d & Ht & Hd).
  destruct (task_dict_lookup (title f) (description f) (due_date f)
              (VPriority (priority f)) (VStatus (status f)) (created_at f) (completed_at f))
    as (H1 & H2 & _).
  unfold TaskManager.matches, hit. run_getattr Hl H1. rewrite Ht.
  erewrite bind_lift_Ret by reflexivity.
  destruct (Str.contains (Str.lower keyword) (Str.lower t)); [done |].
  run_getattr Hl H2. rewrite Hd. by erewrite bind_lift_Ret by reflexivity.
Qed.

Lemma for_each_if_matches w keyword refs fl :
  Forall2 (is_task w) refs fl → Forall (λ f, valid f = true) fl →
  for_each_if (TaskManager.matches (Str.lower keyword)) refs w
  = (Ret (matching keyword refs fl), w).
Proof.
  unfold matching. induction 1 as [| l f refs fl Hl _ IH]; [done |].
  intros [Hv Hvs]%Forall_cons. cbn [for_each_if zip zip_with].
  erewrite bind_Ret by (by apply matches_Ret).
  erewrite bind_Ret by (by apply IH). rewrite filter_cons. simpl. unfold ret.
  destruct (hit keyword f) eqn:Hh.
  - by rewrite decide_True by (by apply hit_mentions).
  - rewrite decide_False; [done |]. rewrite <- hit_mentions. by rewrite Hh.
Qed.

(** [search_tasks] on a store of valid tasks: a new list with the tasks that
    mention the keyword; the store is as before. *)
Lemma search_tasks_Ret w m refs fl keyword :
  is_store w m refs fl → Forall (λ f, valid f = true) fl →
  TaskManager.search_tasks m keyword w
  = (Ret (fresh (dom (lsts w))),
     set_lsts (insert (fresh (dom (lsts w))) (matching keyword refs fl)) w).
Proof.
  intros [Hm Hfl] Hv. unfold TaskManager.search_tasks.
  erewrite bind_Ret by (by apply read_list_Ret).
  by erewrite bind_Ret by (by apply for_each_if_matches).
Qed.

Lemma is_store_new_list w m refs fl refs' :
  is_store w m refs fl →
  is_store (set_lsts (insert (fresh (dom (lsts w))) refs') w) m refs fl.
Proof.
  intros [Hm Hfl]. split; [| done]. rewrite lsts_set_lsts, lookup_insert_ne; [done |].
  intros Heq. by rewrite <- Heq, fresh_list in Hm.
Qed.

Lemma matching_elem keyword refs fl i r f :
  refs !! i = Some r → fl !! i = Some f → mentions keyword f →
  r ∈ matching keyword refs fl.
Proof.
  intros Hr Hf Hm. unfold matching. apply list_elem_of_fmap. exists (r, f).
  split; [done |]. apply list_elem_of_filter. split; [done |].
  apply (list_elem_of_lookup_2 _ i). apply lookup_zip_with_Some. by exists r, f.
Qed.

(** C8, as the claim states it, fails: [search_tasks] compares the
    [str.lower] forms, and these differ for two strings that differ only in
    case when a letter has a case form of more than one character.  The
    store holds one task titled "Straße"; the keyword "STRASSE" is that title
    in capitals ([str.upper] of it); the search for it returns the empty
    list. *)
Lemma search_tasks_misses_title_in_capitals :
  is_store street_store manager [1%positive] [street_task]
  ∧ valid street_task = true
  ∧ title street_task = VStr street
  ∧ Str.upper street = Str.code_points "STRASSE"
  ∧ ∃ l w',
      TaskManager.search_tasks manager "STRASSE" street_store = (Ret l, w')
      ∧ lsts w' !! l = Some [].
Proof.
  assert (is_store street_store manager [1%positive] [street_task]) as Hst
    by (split; [reflexivity | repeat constructor]).
  split; [done |]. split; [done |]. split; [done |]. split; [done |].
  eexists _, _. split.
  { apply (search_tasks_Ret _ _ _ _ "STRASSE" Hst). repeat constructor. }
  rewrite lsts_set_lsts, lookup_insert_eq. f_equal.
Qed.

(** C8, amended: titles, descriptions and keywords are strings of code points
    below 256.  For every store of valid tasks and every keyword (so for
    every non-empty one), [search_tasks] returns a new list that holds
    exactly the tasks of the store whose title or description contains the
    keyword up to the case of single letters, in the order of the store: some
    stretch of the title or description is the keyword character by
    character, two characters counting as the same when they are equal or
    are the capital and the small form of one letter.  The test the code
    makes, on the [str.lower] forms, is that occurrence.  The search for
    "ALPHA" finds a task titled "project-alpha-plan". *)
Theorem search_tasks_case_insensitive w m refs fl keyword :
  is_store w m refs fl →
  Forall (λ f, valid f = true) fl →
  ∃ l w',
    TaskManager.search_tasks m keyword w = (Ret l, w')
    ∧ lsts w !! l = None
    ∧ lsts w' !! l = Some (matching keyword refs fl)
    ∧ is_store w' m refs fl
    ∧ (∀ s, Str.contains (Str.lower keyword) (Str.lower s) = true ↔ occurs_in keyword s)
    ∧ (∀ i r f, refs !! i = Some r → fl !! i = Some f →
                keyword = "ALPHA" → title f = VStr "project-alpha-plan" →
                r ∈ matching keyword refs fl).
Proof.
  intros Hst Hv. eexists _, _. split; [by eapply search_tasks_Ret |].
  split; [apply fresh_list |].
  split; [by rewrite lsts_set_lsts, lookup_insert_eq |].
  split; [by apply is_store_new_list |].
  split; [intros s; apply contains_lower_occurs |].
  intros i r f Hr Hf -> Ht. eapply matching_elem; [done | done |].
  left. exists "project-alpha-plan". split; [done |].
  exists "project-", "alpha", "-plan". split; [done |]. by apply same_text_lower.
Qed.

Lemma search_tasks_case_insensitive_witness :
  ∃ l w',
    TaskManager.search_tasks manager "ALPHA" two_tasks = (Ret l, w')
    ∧ lsts two_tasks !! l = None
    ∧ lsts w' !! l = Some (matching "ALPHA" [1%positive; 2%positive] [plan; milk])
    ∧ is_store w' manager [1%positive; 2%positive] [plan; milk]
    ∧ (∀ s, Str.contains (Str.lower "ALPHA") (Str.lower s) = true ↔ occurs_in "ALPHA" s)
    ∧ (∀ i r f, [1%positive; 2%positive] !! i = Some r → [plan; milk] !! i = Some f →
                "ALPHA" = "ALPHA" → title f = VStr "project-alpha-plan" →
                r ∈ matching "ALPHA" [1%positive; 2%positive] [plan; milk]).
Proof.
  apply (search_tasks_case_insensitive two_tasks manager [1%positive; 2%positive]
           [plan; milk] "ALPHA").
  - split; [reflexivity | repeat constructor].
  - repeat constructor.
Defined.

Lemma mentions_empty f : valid f = true → mentions "" f.
Proof.
  intros Hv. destruct (valid_strings f Hv) as (t & d & Ht & _).
  left. exists t. split; [done |]. by exists "", "", t.
Qed.

Lemma matching_empty refs fl :
  Forall (λ f, valid f = true) fl → List.length refs = List.length fl →
  matching "" refs fl = refs.
Proof.
  unfold matching. intros Hv. revert refs.
  induction Hv as [| f fl Hf _ IH]; intros [| r refs]; simpl; try done.
  intros [= Hlen]. cbn [zip_with]. rewrite filter_cons.
  rewrite decide_True by (by apply mentions_empty). simpl. f_equal. by apply IH.
Qed.

(** C9: [search_tasks] with the empty keyword does not refuse it: on a store
    of valid tasks it returns a new list with every task of the store, in
    the order of the store. *)
Theorem search_tasks_empty_keyword_returns_all w m refs fl :
  is_store w m refs fl →
  Forall (λ f, valid f = true) fl →
  ∃ l w',
    TaskManager.search_tasks m "" w = (Ret l, w')
    ∧ lsts w !! l = None
    ∧ lsts w' !! l = Some refs
    ∧ is_store w' m refs fl.
Proof.
  intros Hst Hv. eexists _, _. split; [by eapply search_tasks_Ret |].
  split; [apply fresh_list |].
  split; [| by apply is_store_new_list].
  rewrite lsts_set_lsts, lookup_insert_eq. f_equal. apply matching_empty; [done |].
  destruct Hst as [_ Hfl]. by eapply Forall2_length.
Qed.

Lemma search_tasks_empty_keyword_returns_all_witness :
  ∃ l w',
    TaskManager.search_tasks manager "" two_tasks = (Ret l, w')
    ∧ lsts two_tasks !! l = None
    ∧ lsts w' !! l = Some [1%positive; 2%positive]
    ∧ is_store w' manager [1%positive; 2%positive] [plan; milk].
Proof.
  apply (search_tasks_empty_keyword_returns_all two_tasks manager [1%positive; 2%positive]
           [plan; milk]).
  - split; [reflexivity | repeat constructor].
  - repeat constructor.
Defined.

(** ** Loading *)

Lemma bind_lift_Raise {A B} (o : outcome A) (k : A → M B) w e :
  o = Raise e → bind (lift o) k w = (Raise e, w).
Proof. by intros ->. Qed.

Lemma extends_refl w : extends w w.
Proof. by repeat split. Qed.

Lemma extends_trans w1 w2 w3 : extends w1 w2 → extends w2 w3 → extends w1 w3.
Proof.
  intros (H1 & H2 & H3 & H4 & H5) (G1 & G2 & G3 & G4 & G5).
  repeat split; [by etrans | congruence ..].
Qed.

Lemma extends_new_obj w o : extends w (set_objs (insert (fresh (dom (objs w))) o) w).
Proof.
  repeat split. rewrite objs_set_objs. apply insert_subseteq, fresh_obj.
Qed.

Lemma is_task_extends w w' l f : extends w w' → is_task w l f → is_task w' l f.
Proof. intros [Hsub _] Hl. unfold is_task in *. by eapply lookup_weaken. Qed.

Lemma code_points_inj s : ∀ s', Str.code_points s = Str.code_points s' → s = s'.
Proof.
  unfold Str.code_points.
  induction s as [| a s IH]; intros [| b s']; simpl; try done.
  intros [= Hab Hs]. f_equal; [| by apply IH].
  by rewrite <- (ascii_N_embedding a), Hab, ascii_N_embedding.
Qed.

Lemma Priority_getitem_Ret v p :
  Priority_getitem v = Ret p → ∃ s, v = VStr s ∧ s ∈ priority_names.
Proof.
  destruct v as [| | | s | | | |]; try done. simpl. unfold Priority_by_name.
  intros H. exists s. split; [done |].
  unfold priority_names. repeat case_decide; try done.
  - rewrite (code_points_inj s "LOW") by done. repeat constructor.
  - rewrite (code_points_inj s "MEDIUM") by done. repeat constructor.
  - rewrite (code_points_inj s "HIGH") by done. repeat constructor.
Qed.

Lemma Priority_getitem_Raise v e :
  Priority_getitem v = Raise e → e = KeyError ∨ e = TypeError.
Proof.
  destruct v; simpl; unfold Priority_by_name; repeat case_decide; intros [= <-]; auto.
Qed.

Lemma Status_call_Ret v s :
  Status_call v = Ret s → v = VStatus s ∨ ∃ t, v = VStr t ∧ t ∈ status_values.
Proof.
  destruct v as [| | | t | | | | s']; try done; simpl.
  - intros H. right. exists t. split; [done |]. unfold status_values.
    repeat case_decide; try done; subst; repeat constructor.
  - intros [= ->]. by left.
Qed.

Lemma Status_call_Raise v e : Status_call v = Raise e → e = ValueError.
Proof. destruct v; simpl; repeat case_decide; by intros [= <-]. Qed.

Ltac raises :=
  right; eexists _, _; split; [reflexivity |];
  split; [repeat constructor | first [apply extends_refl | apply extends_new_obj]].

(** [from_dict] either reads all seven keys, finds the two members and makes
    the instance, or raises one of [KeyError], [ValueError], [TypeError],
    having at most added an instance to the world. *)
Lemma from_dict_cases data w :
  (∃ d t de dd pk p sk s c ca,
      data = VDict d
      ∧ d !! "title" = Some t ∧ d !! "description" = Some de ∧ d !! "due_date" = Some dd
      ∧ d !! "priority" = Some pk ∧ Priority_getitem pk = Ret p
      ∧ d !! "status" = Some sk ∧ Status_call sk = Ret s
      ∧ d !! "created_at" = Some c ∧ d !! "completed_at" = Some ca
      ∧ Task.from_dict data w
        = (Ret (fresh (dom (objs w))),
           set_objs (insert (fresh (dom (objs w))) (instance (Fields t de dd p s c ca))) w))
  ∨ (∃ e w',
      Task.from_dict data w = (Raise e, w')
      ∧ e ∈ [KeyError; ValueError; TypeError]
      ∧ extends w w').
Proof.
  destruct data as [| | | | | d | |]; try by raises.
  unfold Task.from_dict, getitem.
  destruct (d !! "title") as [t |] eqn:E1; [| by raises].
  destruct (d !! "description") as [de |] eqn:E2; [| by raises].
  destruct (d !! "due_date") as [dd |] eqn:E3; [| by raises].
  destruct (d !! "priority") as [pk |] eqn:E4; [| by raises].
  do 4 (erewrite bind_lift_Ret by reflexivity).
  destruct (Priority_getitem pk) as [p | e] eqn:Ep.
  2: { right. eexists _, _. split; [reflexivity |]. split; [| apply extends_refl].
       destruct (Priority_getitem_Raise _ _ Ep) as [-> | ->]; repeat constructor. }
  erewrite bind_lift_Ret by reflexivity.
  destruct (d !! "status") as [sk |] eqn:E5; [| by raises].
  erewrite bind_lift_Ret by reflexivity.
  destruct (Status_call sk) as [s | e] eqn:Es.
  2: { right. eexists _, _. split; [reflexivity |]. split; [| apply extends_refl].
       rewrite (Status_call_Raise _ _ Es). repeat constructor. }
  erewrite bind_lift_Ret by reflexivity.
  erewrite bind_Ret by apply new_Ret.
  destruct (d !! "created_at") as [c |] eqn:E6; [| by raises].
  erewrite bind_lift_Ret by reflexivity. run_setattr.
  destruct (d !! "completed_at") as [ca |] eqn:E7.
  2: { right. eexists _, _. split; [reflexivity |].
       split; [repeat constructor | apply extends_new_obj]. }
  erewrite bind_lift_Ret by reflexivity. run_setattr.
  left. exists d, t, de, dd, pk, p, sk, s, c, ca.
  repeat (split; [done |]). unfold ret, instance. cbn [title description due_date priority
    status created_at completed_at]. by rewrite task_dict_reset.
Qed.

Lemma for_each_from_dict_records fl : ∀ w,
  ∃ refs w',
    for_each Task.from_dict (record <$> fl) w = (Ret refs, w')
    ∧ Forall2 (is_task w') refs fl
    ∧ extends w w'.
Proof.
  induction fl as [| f fl IH]; intros w.
  - exists [], w. repeat split; [constructor | done].
  - destruct (IH (set_objs (insert (fresh (dom (objs w))) (instance f)) w))
      as (refs & w' & Hrun & Hrefs & Hext).
    exists (fresh (dom (objs w)) :: refs), w'. split.
    { cbn [fmap list_fmap for_each]. erewrite bind_Ret by apply from_dict_Ret.
      by erewrite bind_Ret by exact Hrun. }
    split.
    + constructor; [| done]. eapply is_task_extends; [exact Hext | apply is_task_at].
    + eapply extends_trans; [apply extends_new_obj | done].
Qed.

Lemma json_ok_lookup d k v : json_ok (VDict d) = true → d !! k = Some v → json_ok v = true.
Proof. rewrite json_ok_dict. intros Hd Hk. by apply (Hd k v). Qed.

(** A record [from_dict] reads is not unreadable. *)
Lemma from_dict_Ret_readable d w l w' :
  json_ok (VDict d) = true →
  Task.from_dict (VDict d) w = (Ret l, w') → ¬ unreadable d.
Proof.
  intros Hjs Hrun.
  destruct (from_dict_cases (VDict d) w)
    as [(d0 & t & de & dd & pk & p & sk & s & c & ca & [= <-] & H1 & H2 & H3 & H4 & Hp & H5
         & Hs & H6 & H7 & _) | (e & w1 & Hr & _)]; [| congruence].
  intros [(k & Hk & Hnone) | [(v & Hv & Hno) | (v & Hv & Hno)]].
  - unfold field_names in Hk.
    repeat (apply elem_of_cons in Hk as [-> | Hk]; [congruence |]).
    by apply elem_of_nil in Hk.
  - rewrite H4 in Hv. injection Hv as <-.
    destruct (Priority_getitem_Ret _ _ Hp) as (n & -> & Hn). by apply (Hno n).
  - rewrite H5 in Hv. injection Hv as <-.
    destruct (Status_call_Ret _ _ Hs) as [-> | (n & -> & Hn)]; [| by apply (Hno n)].
    by apply (json_ok_lookup _ _ _ Hjs) in H5.
Qed.

(** [from_dict] over a sequence of records one of which is unreadable
    raises, and not [JSONDecodeError]. *)
Lemma for_each_from_dict_unreadable items : ∀ w,
  Forall (λ v, json_ok v = true) items →
  Forall is_record items →
  Exists is_unreadable items →
  ∃ e w',
    for_each Task.from_dict items w = (Raise e, w')
    ∧ e ∈ [KeyError; ValueError; TypeError]
    ∧ extends w w'.
Proof.
  induction items as [| v items IH]; intros w Hjs Hrec Hbad.
  - by apply Exists_nil in Hbad.
  - apply Forall_cons in Hjs as [Hv Hjs]. apply Forall_cons in Hrec as [[d ->] Hrec].
    cbn [for_each].
    destruct (from_dict_cases (VDict d) w)
      as [(d0 & t & de & dd & pk & p & sk & s & c & ca & _ & _ & _ & _ & _ & _ & _ & _ & _
           & _ & Hrun) | (e & w1 & Hrun & He & Hext)].
    + apply Exists_cons in Hbad as [(d1 & [= <-] & Hun) | Hbad].
      { by destruct (from_dict_Ret_readable _ _ _ _ Hv Hrun). }
      destruct (IH (set_objs (insert (fresh (dom (objs w)))
                                     (instance (Fields t de dd p s c ca))) w)
                   Hjs Hrec Hbad) as (e & w' & Hrest & He & Hext).
      exists e, w'. split.
      { erewrite bind_Ret by exact Hrun. by erewrite bind_Raise by exact Hrest. }
      split; [done |]. eapply extends_trans; [apply extends_new_obj | done].
    + exists e, w1. split; [by erewrite bind_Raise by exact Hrun | done].
Qed.

Lemma try_except_Ret {A} (body handler : M A) E w a w' :
  body w = (Ret a, w') → try_except body E handler w = (Ret a, w').
Proof. unfold try_except. by intros ->. Qed.

Lemma try_except_other {A} (body handler : M A) E w e w' :
  body w = (Raise e, w') → e ≠ E → try_except body E handler w = (Raise e, w').
Proof. unfold try_except. intros -> He. by rewrite decide_False. Qed.

Lemma try_except_caught {A} (body handler : M A) E w w' :
  body w = (Raise E, w') → try_except body E handler w = handler w'.
Proof. unfold try_except. intros ->. by rewrite decide_True. Qed.

Lemma path_exists_true w path f :
  fs w !! path = Some f → path_exists path w = (Ret true, w).
Proof. intros H. unfold path_exists. by rewrite bool_decide_eq_true_2. Qed.

Lemma open_read_Ret w path f :
  fs w !! path = Some f → path ∉ denied w → open_read path w = (Ret f, w).
Proof. intros H Hd. unfold open_read. by rewrite decide_False, H. Qed.

(** [load_tasks] when the file is there and can be opened. *)
Lemma load_tasks_file w m f :
  fs w !! TaskManager.filename m = Some f →
  TaskManager.filename m ∉ denied w →
  TaskManager.load_tasks m w
  = try_except
      (tasks_data <- json_load f ;;
       items <- lift (py_iter tasks_data) ;;
       refs <- for_each Task.from_dict items ;;
       l <- new_list refs ;;
       ret (TaskManager.Self (TaskManager.filename m) l))
      JSONDecodeError
      (l <- new_list [] ;;
       ret (TaskManager.Self (TaskManager.filename m) l)) w.
Proof.
  intros Hf Hd. unfold TaskManager.load_tasks.
  erewrite bind_Ret by (by eapply path_exists_true). cbv iota.
  by erewrite bind_Ret by (by apply open_read_Ret).
Qed.

(** [load_tasks] on a file that holds the records of [fl]: the manager gets
    a new list of new tasks with these fields, in order. *)
Lemma load_tasks_records w m fl :
  fs w !! TaskManager.filename m = Some (Document (VList (record <$> fl))) →
  TaskManager.filename m ∉ denied w →
  ∃ refs l w',
    TaskManager.load_tasks m w = (Ret (TaskManager.Self (TaskManager.filename m) l), w')
    ∧ lsts w !! l = None
    ∧ is_store w' (TaskManager.Self (TaskManager.filename m) l) refs fl
    ∧ objs w ⊆ objs w'
    ∧ fs w' = fs w
    ∧ (∀ l0, l0 ≠ l → lsts w' !! l0 = lsts w !! l0).
Proof.
  intros Hf Hd.
  destruct (for_each_from_dict_records fl w) as (refs & w1 & Hrun & Hrefs & Hext).
  destruct Hext as (Ho & Hl & Hfs & Hden & Hc).
  exists refs, (fresh (dom (lsts w1))), (set_lsts (insert (fresh (dom (lsts w1))) refs) w1).
  split.
  { rewrite (load_tasks_file _ _ _ Hf Hd).
    apply try_except_Ret. cbn [json_load].
    erewrite bind_Ret by reflexivity. erewrite bind_lift_Ret by reflexivity.
    erewrite bind_Ret by exact Hrun. by erewrite bind_Ret by reflexivity. }
  split; [rewrite <- Hl; apply fresh_list |].
  split; [split; [cbn; by rewrite lookup_insert_eq | done] |].
  split; [done |]. split; [done |].
  intros l0 Hl0. rewrite lsts_set_lsts, lookup_insert_ne by done. by rewrite Hl.
Qed.

Lemma for_each_to_dict_plain w refs fl :
  Forall2 (is_task w) refs fl →
  for_each Task.to_dict refs w = (Ret (record <$> fl), w).
Proof.
  induction 1 as [| l f refs fl Hl _ IH]; [done |]. cbn [for_each fmap list_fmap].
  erewrite bind_Ret by (by apply to_dict_Ret).
  by erewrite bind_Ret by exact IH.
Qed.

Lemma is_store_set_fs g w m refs fl : is_store w m refs fl → is_store (set_fs g w) m refs fl.
Proof. done. Qed.

Lemma add_task_Ret w m refs fl task f :
  is_store w m refs fl → is_task w task f →
  Forall (λ f, jsonable f = true) (fl ++ [f])%list →
  TaskManager.filename m ∉ denied w →
  TaskManager.add_task m task w
  = (Ret tt,
     set_fs (insert (TaskManager.filename m) (Document (VList (record <$> (fl ++ [f])%list))))
            (set_lsts (insert (TaskManager.tasks m) (refs ++ [task])%list) w)).
Proof.
  intros [Hm Hfl] Hl Hjs Hd. unfold TaskManager.add_task.
  erewrite bind_Ret by (by apply read_list_Ret).
  erewrite bind_Ret by reflexivity.
  apply (save_tasks_Ret _ m (refs ++ [task]) (fl ++ [f])); [| done | done].
  split; [by rewrite lsts_set_lsts, lookup_insert_eq |].
  apply Forall2_app; [done | by constructor].
Qed.

(** C5: [add_task(task)], then [save_tasks], then a new manager on the same
    file.  The new manager holds as many tasks as the first one did when it
    saved, and [to_dict] of its tasks, in order, gives the records [to_dict]
    gave of the tasks of the first one, in order; its tasks and its list are
    new objects, and the first manager is as it was. *)
Theorem add_save_load_gives_same_records w m refs fl task f :
  is_store w m refs fl →
  is_task w task f →
  Forall (λ f, jsonable f = true) (fl ++ [f])%list →
  TaskManager.filename m ∉ denied w →
  ∃ w1 m' w2 refs',
    (TaskManager.add_task m task ;; TaskManager.save_tasks m) w = (Ret tt, w1)
    ∧ is_store w1 m (refs ++ [task])%list (fl ++ [f])%list
    ∧ TaskManager.__init__ (TaskManager.filename m) w1 = (Ret m', w2)
    ∧ TaskManager.filename m' = TaskManager.filename m
    ∧ TaskManager.tasks m' ≠ TaskManager.tasks m
    ∧ is_store w2 m' refs' (fl ++ [f])%list
    ∧ is_store w2 m (refs ++ [task])%list (fl ++ [f])%list
    ∧ List.length refs' = List.length (refs ++ [task])%list
    ∧ for_each Task.to_dict (refs ++ [task])%list w1 = (Ret (record <$> (fl ++ [f])%list), w1)
    ∧ for_each Task.to_dict refs' w2 = (Ret (record <$> (fl ++ [f])%list), w2).
Proof.
  intros Hst Hl Hjs Hd.
  pose proof Hst as [Hm Hfl].
  set (doc := Document (VList (record <$> (fl ++ [f])%list))).
  set (wA := set_lsts (insert (TaskManager.tasks m) (refs ++ [task])%list) w).
  set (wB := set_fs (insert (TaskManager.filename m) doc) wA).
  set (w1 := set_fs (insert (TaskManager.filename m) doc) wB).
  assert (is_store wA m (refs ++ [task])%list (fl ++ [f])%list) as HstA.
  { split; [by unfold wA; rewrite lsts_set_lsts, lookup_insert_eq |].
    apply Forall2_app; [done | by constructor]. }
  assert (is_store w1 m (refs ++ [task])%list (fl ++ [f])%list) as Hst1 by done.
  set (l0 := fresh (dom (lsts w1))).
  set (wC := set_lsts (insert l0 []) w1).
  assert (fs wC !! TaskManager.filename m = Some doc) as HfC.
  { unfold wC, w1. cbn. apply lookup_insert_eq. }
  destruct (load_tasks_records wC (TaskManager.Self (TaskManager.filename m) l0)
              (fl ++ [f])%list HfC Hd) as (refs' & l & w2 & Hload & Hnew & Hst2 & Hobjs & _ & Hl2).
  cbn [TaskManager.filename] in Hload, Hst2.
  assert (lsts wC !! TaskManager.tasks m = Some (refs ++ [task])%list) as HmC.
  { unfold wC. rewrite lsts_set_lsts, lookup_insert_ne; [by destruct Hst1 |].
    intros Heq. destruct Hst1 as [Hm1 _]. unfold l0 in Heq.
    by rewrite <- Heq, fresh_list in Hm1. }
  assert (l ≠ TaskManager.tasks m) as Hne by (intros ->; congruence).
  exists w1, (TaskManager.Self (TaskManager.filename m) l), w2, refs'.
  split.
  { erewrite bind_Ret by (by eapply add_task_Ret). by eapply save_tasks_Ret. }
  split; [done |].
  split.
  { unfold TaskManager.__init__. by erewrite bind_Ret by reflexivity. }
  split; [done |]. split; [done |]. split; [done |].
  assert (is_store w2 m (refs ++ [task])%list (fl ++ [f])%list) as Hold.
  { split; [by rewrite Hl2 |]. destruct Hst1 as [_ H1]. eapply Forall2_impl; [exact H1 |].
    intros r g Hr. unfold is_task in *. by eapply lookup_weaken. }
  split; [done |].
  split.
  { destruct Hst2 as [_ H2]. destruct Hst1 as [_ H1].
    by rewrite (Forall2_length _ _ _ H2), (Forall2_length _ _ _ H1). }
  split; apply for_each_to_dict_plain; [by destruct Hst1 | by destruct Hst2].
Qed.

Lemma add_save_load_gives_same_records_witness :
  ∃ w1 m' w2 refs',
    (TaskManager.add_task manager 3%positive ;; TaskManager.save_tasks manager) new_task
    = (Ret tt, w1)
    ∧ is_store w1 manager ([1%positive; 2%positive] ++ [3%positive])%list ([plan; milk] ++ [bank])%list
    ∧ TaskManager.__init__ (TaskManager.filename manager) w1 = (Ret m', w2)
    ∧ TaskManager.filename m' = TaskManager.filename manager
    ∧ TaskManager.tasks m' ≠ TaskManager.tasks manager
    ∧ is_store w2 m' refs' ([plan; milk] ++ [bank])%list
    ∧ is_store w2 manager ([1%positive; 2%positive] ++ [3%positive])%list ([plan; milk] ++ [bank])%list
    ∧ List.length refs' = List.length ([1%positive; 2%positive] ++ [3%positive])%list
    ∧ for_each Task.to_dict ([1%positive; 2%positive] ++ [3%positive])%list w1
      = (Ret (record <$> ([plan; milk] ++ [bank])%list), w1)
    ∧ for_each Task.to_dict refs' w2 = (Ret (record <$> ([plan; milk] ++ [bank])%list), w2).
Proof.
  apply (add_save_load_gives_same_records new_task manager [1%positive; 2%positive]
           [plan; milk] 3%positive bank).
  - split; [reflexivity | repeat constructor].
  - reflexivity.
  - repeat constructor.
  - apply not_elem_of_empty.
Defined.

(** C4, as the claim states it, fails: not every file that is no JSON makes
    [load_tasks] return with an empty list.  Only [JSONDecodeError] is
    caught.  A file whose bytes are no text makes it raise
    [UnicodeDecodeError], and a file that opens more brackets than the
    interpreter recurses (and closes none) makes it raise [RecursionError];
    in both cases no list is made and the world is as it was. *)
Lemma load_tasks_file_that_is_no_text_raises :
  (fs binary_file !! TaskManager.filename manager = Some Undecodable
   ∧ (TaskManager.filename manager ∉ denied binary_file)
   ∧ TaskManager.load_tasks manager binary_file = (Raise UnicodeDecodeError, binary_file))
  ∧ (fs deep_file !! TaskManager.filename manager = Some Overnested
     ∧ (TaskManager.filename manager ∉ denied deep_file)
     ∧ TaskManager.load_tasks manager deep_file = (Raise RecursionError, deep_file)).
Proof.
  split; (split; [reflexivity |]; split; [apply not_elem_of_empty | reflexivity]).
Qed.

(** C4, amended: [load_tasks] tells three kinds of failure apart.  On a file
    in which the parser finds an error of syntax ([json.load] raises
    [JSONDecodeError]) it returns, and the manager holds a new empty list.
    On a file that [json.load] cannot read as text, or whose brackets are
    nested deeper than the interpreter recurses, it raises
    [UnicodeDecodeError] or [RecursionError]: these are not caught, no list
    is made and nothing changes.  On a file that parses to a sequence of
    records one of which is unreadable (a required key missing, a priority
    that names no member, a status that is no display string) it raises
    [KeyError], [ValueError] or [TypeError], not caught by the
    [except json.JSONDecodeError]: no record is skipped, no list is made or
    changed, and the file is as it was. *)
Theorem load_tasks_parse_error_vs_unreadable_record w m w2 m2 items w3 m3 f3 :
  fs w !! TaskManager.filename m = Some Malformed →
  TaskManager.filename m ∉ denied w →
  fs w2 !! TaskManager.filename m2 = Some (Document (VList items)) →
  TaskManager.filename m2 ∉ denied w2 →
  Forall (λ v, json_ok v = true) items →
  Forall is_record items →
  Exists is_unreadable items →
  fs w3 !! TaskManager.filename m3 = Some f3 →
  TaskManager.filename m3 ∉ denied w3 →
  f3 ∈ [Undecodable; Overnested] →
  (∃ l w',
      TaskManager.load_tasks m w = (Ret (TaskManager.Self (TaskManager.filename m) l), w')
      ∧ lsts w !! l = None
      ∧ lsts w' !! l = Some []
      ∧ objs w' = objs w
      ∧ fs w' = fs w)
  ∧ (∃ e w',
      TaskManager.load_tasks m2 w2 = (Raise e, w')
      ∧ e ∈ [KeyError; ValueError; TypeError]
      ∧ e ≠ JSONDecodeError
      ∧ lsts w' = lsts w2
      ∧ fs w' = fs w2)
  ∧ (∃ e,
      TaskManager.load_tasks m3 w3 = (Raise e, w3)
      ∧ (f3 = Undecodable → e = UnicodeDecodeError)
      ∧ (f3 = Overnested → e = RecursionError)
      ∧ e ≠ JSONDecodeError).
Proof.
  intros Hf Hd Hf2 Hd2 Hjs Hrec Hbad Hf3 Hd3 Hk. split; [| split].
  - eexists _, _. split.
    { rewrite (load_tasks_file _ _ _ Hf Hd). erewrite try_except_caught by reflexivity.
      by erewrite bind_Ret by reflexivity. }
    split; [apply fresh_list |]. split; [| done].
    by rewrite lsts_set_lsts, lookup_insert_eq.
  - destruct (for_each_from_dict_unreadable items w2 Hjs Hrec Hbad)
      as (e & w' & Hrun & He & (_ & Hl & Hfs & _)).
    assert (e ≠ JSONDecodeError) as Hne.
    { intros ->. repeat (apply elem_of_cons in He as [He | He]; [done |]).
      by apply elem_of_nil in He. }
    exists e, w'. split; [| done].
    rewrite (load_tasks_file _ _ _ Hf2 Hd2). apply try_except_other; [| done].
    cbn [json_load]. erewrite bind_Ret by reflexivity.
    erewrite bind_lift_Ret by reflexivity. by erewrite bind_Raise by exact Hrun.
  - rewrite (load_tasks_file _ _ _ Hf3 Hd3).
    apply elem_of_cons in Hk as [-> | Hk]; [| apply elem_of_cons in Hk as [-> | Hk]].
    + exists UnicodeDecodeError. split; [by apply try_except_other | done].
    + exists RecursionError. split; [by apply try_except_other | done].
    + by apply elem_of_nil in Hk.
Qed.

Lemma load_tasks_parse_error_vs_unreadable_record_witness :
  (∃ l w',
      TaskManager.load_tasks manager broken_file
      = (Ret (TaskManager.Self (TaskManager.filename manager) l), w')
      ∧ lsts broken_file !! l = None
      ∧ lsts w' !! l = Some []
      ∧ objs w' = objs broken_file
      ∧ fs w' = fs broken_file)
  ∧ (∃ e w',
      TaskManager.load_tasks manager bad_record_file = (Raise e, w')
      ∧ e ∈ [KeyError; ValueError; TypeError]
      ∧ e ≠ JSONDecodeError
      ∧ lsts w' = lsts bad_record_file
      ∧ fs w' = fs bad_record_file)
  ∧ (∃ e,
      TaskManager.load_tasks manager deep_file = (Raise e, deep_file)
      ∧ (Overnested = Undecodable → e = UnicodeDecodeError)
      ∧ (Overnested = Overnested → e = RecursionError)
      ∧ e ≠ JSONDecodeError).
Proof.
  apply (load_tasks_parse_error_vs_unreadable_record broken_file manager bad_record_file
           manager [record plan; urgent_record] deep_file manager Overnested).
  - reflexivity.
  - apply not_elem_of_empty.
  - reflexivity.
  - apply not_elem_of_empty.
  - repeat constructor.
  - repeat constructor; by eexists.
  - apply Exists_cons_tl, Exists_cons_hd. eexists. split; [reflexivity |].
    right. left. exists (VStr "URGENT"). split; [reflexivity |].
    intros s Hs. unfold priority_names in Hs.
    repeat (apply elem_of_cons in Hs as [-> | Hs]; [discriminate |]).
    by apply elem_of_nil in Hs.
  - reflexivity.
  - apply not_elem_of_empty.
  - apply elem_of_cons. right. apply elem_of_cons. by left.
Defined.

(** * Further properties of the code *)

(** ** Deleting *)

(** X1: [delete_task] at an index in range returns [True], removes the reference
    at that index and no other (the references before keep their index, the
    ones after move down by one), leaves every task as it is, and writes
    the records of the tasks that remain to the file. *)
Theorem delete_task_removes_one_and_saves w m refs fl index :
  is_store w m refs fl →
  0 ≤ index < Z.of_nat (List.length refs) →
  Forall (λ f, jsonable f = true) fl →
  TaskManager.filename m ∉ denied w →
  ∃ w',
    TaskManager.delete_task m index w = (Ret true, w')
    ∧ is_store w' m (delete (Z.to_nat index) refs) (delete (Z.to_nat index) fl)
    ∧ objs w' = objs w
    ∧ fs w' !! TaskManager.filename m
      = Some (Document (VList (record <$> delete (Z.to_nat index) fl)))
    ∧ List.length (delete (Z.to_nat index) refs) = (List.length refs - 1)%nat
    ∧ (∀ j, (j < Z.to_nat index)%nat → delete (Z.to_nat index) refs !! j = refs !! j)
    ∧ (∀ j, (Z.to_nat index ≤ j)%nat → delete (Z.to_nat index) refs !! j = refs !! S j).
Proof.
  intros [Hm Hfl] Hi Hjs Hd.
  set (i := Z.to_nat index).
  set (w1 := set_lsts (insert (TaskManager.tasks m) (delete i refs)) w).
  assert (is_store w1 m (delete i refs) (delete i fl)) as Hst1.
  { split; [by unfold w1; rewrite lsts_set_lsts, lookup_insert_eq |].
    by apply Forall2_delete. }
  eexists. split.
  { unfold TaskManager.delete_task.
    erewrite bind_Ret by (by apply read_list_Ret). rewrite in_range_true by done.
    erewrite bind_Ret by reflexivity.
    erewrite bind_Ret; [reflexivity |].
    apply (save_tasks_Ret _ m (delete i refs) (delete i fl)); [done | | done].
    by apply Forall_delete. }
  split; [done |]. split; [done |].
  split; [cbn; apply lookup_insert_eq |].
  split; [apply length_delete, lookup_lt_is_Some; unfold i; lia |].
  split; [intros j Hj; by apply list_lookup_delete_lt |].
  intros j Hj. by apply list_lookup_delete_ge.
Qed.

Lemma delete_task_removes_one_and_saves_witness :
  ∃ w',
    TaskManager.delete_task manager 0 two_tasks = (Ret true, w')
    ∧ is_store w' manager (delete (Z.to_nat 0) [1%positive; 2%positive])
                          (delete (Z.to_nat 0) [plan; milk])
    ∧ objs w' = objs two_tasks
    ∧ fs w' !! TaskManager.filename manager
      = Some (Document (VList (record <$> delete (Z.to_nat 0) [plan; milk])))
    ∧ List.length (delete (Z.to_nat 0) [1%positive; 2%positive])
      = (List.length [1%positive; 2%positive] - 1)%nat
    ∧ (∀ j, (j < Z.to_nat 0)%nat →
            delete (Z.to_nat 0) [1%positive; 2%positive] !! j = [1%positive; 2%positive] !! j)
    ∧ (∀ j, (Z.to_nat 0 ≤ j)%nat →
            delete (Z.to_nat 0) [1%positive; 2%positive] !! j
            = [1%positive; 2%positive] !! S j).
Proof.
  apply (delete_task_removes_one_and_saves two_tasks manager [1%positive; 2%positive]
           [plan; milk] 0).
  - split; [reflexivity | repeat constructor].
  - simpl; lia.
  - repeat constructor.
  - apply not_elem_of_empty.
Defined.

(** ** Starting on a path with no file *)

Lemma load_tasks_no_file w m :
  fs w !! TaskManager.filename m = None → TaskManager.load_tasks m w = (Ret m, w).
Proof.
  intros Hf. unfold TaskManager.load_tasks.
  assert (path_exists (TaskManager.filename m) w = (Ret false, w)) as Hp.
  { unfold path_exists. rewrite bool_decide_eq_false_2; [done |].
    rewrite Hf. by intros [? ?]. }
  by erewrite bind_Ret by exact Hp.
Qed.

(** X2: A manager made on a path with no file holds an empty list and makes no
    file; after [add_task] of a task built with the defaults the manager
    holds that one task and the file holds one record, with priority
    "MEDIUM", status "Pending", an empty description and [None] for
    [due_date] and [completed_at]. *)
Theorem first_task_on_new_path w path ttl :
  fs w !! path = None →
  path ∉ denied w →
  json_ok ttl = true →
  ∃ m w0 t w1 w2,
    TaskManager.__init__ path w = (Ret m, w0)
    ∧ TaskManager.filename m = path
    ∧ is_store w0 m [] []
    ∧ fs w0 = fs w
    ∧ Task.new ttl Task.default_description Task.default_due_date Task.default_priority
        Task.default_status w0 = (Ret t, w1)
    ∧ TaskManager.add_task m t w1 = (Ret tt, w2)
    ∧ is_store w2 m [t] [default_fields ttl (clock w)]
    ∧ fs w2 !! path = Some (Document (VList [record (default_fields ttl (clock w))]))
    ∧ getitem (record (default_fields ttl (clock w))) "priority" = Ret (VStr "MEDIUM")
    ∧ getitem (record (default_fields ttl (clock w))) "status" = Ret (VStr "Pending")
    ∧ getitem (record (default_fields ttl (clock w))) "completed_at" = Ret VNone.
Proof.
  intros Hf Hd Hjs.
  set (l0 := fresh (dom (lsts w))).
  set (w0 := set_lsts (insert l0 []) w).
  set (m := TaskManager.Self path l0).
  set (t := fresh (dom (objs w0))).
  set (w1 := set_objs (insert t (instance (default_fields ttl (clock w)))) w0).
  assert (is_store w0 m [] []) as Hst0.
  { split; [cbn; apply lookup_insert_eq | constructor]. }
  assert (is_store w1 m [] []) as Hst1.
  { split; [cbn; apply lookup_insert_eq | constructor]. }
  assert (is_task w1 t (default_fields ttl (clock w))) as Ht by apply is_task_at.
  exists m, w0, t.
  eexists w1, _. split.
  { unfold TaskManager.__init__. erewrite bind_Ret by reflexivity.
    by apply (load_tasks_no_file w0 m). }
  split; [done |]. split; [done |]. split; [done |].
  split; [apply new_Ret |].
  split.
  { apply (add_task_Ret w1 m [] [] t (default_fields ttl (clock w))); try done.
    repeat constructor. unfold jsonable. cbn. by rewrite Hjs. }
  split.
  { split; [cbn; apply lookup_insert_eq | by repeat constructor]. }
  split; [cbn; apply lookup_insert_eq |].
  destruct (task_dict_lookup ttl (VStr "") VNone (VStr "MEDIUM") (VStr "Pending")
              (VStr (clock w)) VNone) as (_ & _ & _ & Hp & Hs & _ & Hc).
  unfold getitem, record, default_fields. cbn [priority status completed_at title description
    due_date created_at Priority_name Status_value]. by rewrite Hp, Hs, Hc.
Qed.

Lemma first_task_on_new_path_witness :
  ∃ m w0 t w1 w2,
    TaskManager.__init__ "t.json" two_tasks = (Ret m, w0)
    ∧ TaskManager.filename m = "t.json"
    ∧ is_store w0 m [] []
    ∧ fs w0 = fs two_tasks
    ∧ Task.new (VStr "Buy milk") Task.default_description Task.default_due_date
        Task.default_priority Task.default_status w0 = (Ret t, w1)
    ∧ TaskManager.add_task m t w1 = (Ret tt, w2)
    ∧ is_store w2 m [t] [default_fields (VStr "Buy milk") (clock two_tasks)]
    ∧ fs w2 !! "t.json"
      = Some (Document (VList [record (default_fields (VStr "Buy milk") (clock two_tasks))]))
    ∧ getitem (record (default_fields (VStr "Buy milk") (clock two_tasks))) "priority"
      = Ret (VStr "MEDIUM")
    ∧ getitem (record (default_fields (VStr "Buy milk") (clock two_tasks))) "status"
      = Ret (VStr "Pending")
    ∧ getitem (record (default_fields (VStr "Buy milk") (clock two_tasks))) "completed_at"
      = Ret VNone.
Proof.
  apply (first_task_on_new_path two_tasks "t.json" (VStr "Buy milk")).
  - reflexivity.
  - apply not_elem_of_empty.
  - reflexivity.
Defined.

(** ** Completing *)

Lemma insert_completed t f :
  <["completed_at" := VStr t]> (<["status" := VStatus COMPLETED]> (instance f))
  = instance (completed t f).
Proof.
  destruct (insert_instance "status" (VStatus COMPLETED) f) as (_ & _ & _ & _ & H5 & _).
  rewrite (H5 COMPLETED) by done.
  match goal with |- <[_ := _]> (instance ?g) = _ =>
    destruct (insert_instance "completed_at" (VStr t) g) as (_ & _ & _ & _ & _ & _ & H7)
  end.
  by rewrite H7.
Qed.

Lemma mark_complete_task w l f :
  is_task w l f →
  Task.mark_complete l w
  = (Ret tt, set_objs (insert l (instance (completed (clock w) f))) w).
Proof.
  intros Hl. rewrite (mark_complete_Ret w l (instance f) Hl). by rewrite insert_completed.
Qed.

(** X3: [mark_complete] changes the status and [completed_at] of the task and
    nothing else: the other five fields, the lists and the files are as
    before (it does not save).  Called again when the clock shows [t2], it
    leaves the status [COMPLETED] and replaces [completed_at] by [t2]. *)
Theorem mark_complete_twice w l f t2 :
  is_task w l f →
  ∃ w1 w2,
    Task.mark_complete l w = (Ret tt, w1)
    ∧ is_task w1 l (completed (clock w) f)
    ∧ lsts w1 = lsts w ∧ fs w1 = fs w
    ∧ (∀ l', l' ≠ l → objs w1 !! l' = objs w !! l')
    ∧ Task.mark_complete l (at_time t2 w1) = (Ret tt, w2)
    ∧ is_task w2 l (completed t2 f)
    ∧ lsts w2 = lsts w ∧ fs w2 = fs w.
Proof.
  intros Hl. eexists _, _. split; [by apply mark_complete_task |].
  split; [apply is_task_at |]. split; [done |]. split; [done |].
  split; [intros l' Hne; by rewrite objs_set_objs, lookup_insert_ne |].
  split.
  { apply (mark_complete_task _ l (completed (clock w) f)).
    unfold is_task, at_time. cbn. apply lookup_insert_eq. }
  split; [apply is_task_at | done].
Qed.

Lemma mark_complete_twice_witness :
  ∃ w1 w2,
    Task.mark_complete 1%positive two_tasks = (Ret tt, w1)
    ∧ is_task w1 1%positive (completed (clock two_tasks) plan)
    ∧ lsts w1 = lsts two_tasks ∧ fs w1 = fs two_tasks
    ∧ (∀ l', l' ≠ 1%positive → objs w1 !! l' = objs two_tasks !! l')
    ∧ Task.mark_complete 1%positive (at_time "2024-01-09 17:00:00" w1) = (Ret tt, w2)
    ∧ is_task w2 1%positive (completed "2024-01-09 17:00:00" plan)
    ∧ lsts w2 = lsts two_tasks ∧ fs w2 = fs two_tasks.
Proof. apply (mark_complete_twice two_tasks 1%positive plan); reflexivity. Defined.

(** X4: The list [list_tasks] returns with a filter holds the tasks of the
    store themselves, not copies: every reference in it is a reference of
    the store, and [mark_complete] on it completes the task the store
    holds. *)
Theorem listed_tasks_are_the_stored_tasks w m refs fl st :
  is_store w m refs fl →
  ∃ l w1 found,
    TaskManager.list_tasks m (Some st) w = (Ret l, w1)
    ∧ lsts w1 !! l = Some found
    ∧ ∀ r, r ∈ found →
        r ∈ refs
        ∧ ∃ f w2,
            is_task w r f
            ∧ Task.mark_complete r w1 = (Ret tt, w2)
            ∧ lsts w2 !! TaskManager.tasks m = Some refs
            ∧ is_task w2 r (completed (clock w) f).
Proof.
  intros [Hm Hfl]. eexists _, _, (with_status st refs fl). split.
  { cbn. erewrite bind_Ret by (by apply read_list_Ret).
    erewrite bind_Ret by (by apply for_each_if_status). reflexivity. }
  split; [by rewrite lsts_set_lsts, lookup_insert_eq |].
  intros r Hr. unfold with_status in Hr.
  apply list_elem_of_fmap in Hr as ([r' f] & -> & Hin).
  apply list_elem_of_filter in Hin as [_ Hin].
  apply list_elem_of_lookup in Hin as [j Hj].
  apply lookup_zip_with_Some in Hj as (r0 & f0 & [= -> ->] & Hr & Hf).
  split; [by eapply list_elem_of_lookup_2 |].
  assert (is_task w r0 f0) as Hl by (by eapply Forall2_lookup_lr).
  exists f0. eexists. split; [done |].
  split; [by apply (mark_complete_task _ r0 f0) |].
  split; [| apply is_task_at].
  rewrite lsts_set_objs, lsts_set_lsts, lookup_insert_ne; [done |].
  intros Heq. by rewrite <- Heq, fresh_list in Hm.
Qed.

Lemma listed_tasks_are_the_stored_tasks_witness :
  ∃ l w1 found,
    TaskManager.list_tasks manager (Some PENDING) two_tasks = (Ret l, w1)
    ∧ lsts w1 !! l = Some found
    ∧ ∀ r, r ∈ found →
        r ∈ [1%positive; 2%positive]
        ∧ ∃ f w2,
            is_task two_tasks r f
            ∧ Task.mark_complete r w1 = (Ret tt, w2)
            ∧ lsts w2 !! TaskManager.tasks manager = Some [1%positive; 2%positive]
            ∧ is_task w2 r (completed (clock two_tasks) f).
Proof.
  apply (listed_tasks_are_the_stored_tasks two_tasks manager [1%positive; 2%positive]
           [plan; milk] PENDING).
  split; [reflexivity | repeat constructor].
Defined.

(** ** The codecs of the enumerations *)

Lemma Priority_by_name_Ret s p :
  Priority_by_name (Str.code_points s) = Ret p ↔ s = Priority_name p.
Proof.
  unfold Priority_by_name. split.
  - repeat case_decide; intros [= <-]; by apply code_points_inj.
  - intros ->. by destruct p.
Qed.

Lemma Priority_getitem_not_name s :
  s ∉ priority_names → Priority_getitem (VStr s) = Raise KeyError.
Proof.
  intros Hs. cbn. destruct (Priority_by_name (Str.code_points s)) as [p | e] eqn:Hp.
  - apply Priority_by_name_Ret in Hp as ->. destruct Hs. destruct p; repeat constructor.
  - revert Hp. unfold Priority_by_name. by repeat case_decide; intros [= <-].
Qed.

(** ** Reading records *)

(** X6: [from_dict] looks at the seven keys of a record and at nothing else: a
    record with one more key is read the same way, whether it is read or
    refused. *)
Theorem from_dict_ignores_other_keys d k v w :
  k ∉ field_names →
  Task.from_dict (VDict (<[k := v]> d)) w = Task.from_dict (VDict d) w.
Proof.
  intros Hk. unfold Task.from_dict, getitem.
  assert (∀ k', k' ∈ field_names → <[k := v]> d !! k' = d !! k') as Hother.
  { intros k' Hk'. apply lookup_insert_ne. by intros ->. }
  rewrite !Hother by repeat constructor. done.
Qed.

Lemma from_dict_ignores_other_keys_witness :
  Task.from_dict (VDict (<["colour" := VStr "red"]> plan_dict)) two_tasks
  = Task.from_dict (VDict plan_dict) two_tasks
  ∧ Task.from_dict (VDict plan_dict) two_tasks
    = (Ret 3%positive, set_objs (insert 3%positive (instance plan)) two_tasks).
Proof.
  split; [| reflexivity].
  apply (from_dict_ignores_other_keys plan_dict "colour" (VStr "red") two_tasks).
  unfold field_names. intros H.
  repeat (apply elem_of_cons in H as [H | H]; [discriminate |]). by apply elem_of_nil in H.
Defined.

(** X7: [from_dict] takes the priority by its exact name: on a record whose
    priority is a string that is not one of "LOW", "MEDIUM", "HIGH" (so
    also on "low" or "High") it raises [KeyError], and makes no task. *)
Theorem from_dict_priority_name_is_exact d w t de dd s :
  d !! "title" = Some t →
  d !! "description" = Some de →
  d !! "due_date" = Some dd →
  d !! "priority" = Some (VStr s) →
  s ∉ priority_names →
  Task.from_dict (VDict d) w = (Raise KeyError, w).
Proof.
  intros H1 H2 H3 H4 Hs. unfold Task.from_dict, getitem. rewrite H1, H2, H3, H4.
  do 4 (erewrite bind_lift_Ret by reflexivity).
  apply bind_lift_Raise. by apply Priority_getitem_not_name.
Qed.

Lemma from_dict_priority_name_is_exact_witness :
  Task.from_dict
    (VDict (task_dict (VStr "Call the bank") (VStr "") VNone (VStr "low") (VStr "Pending")
                      (VStr "2024-01-03 09:00:00") VNone)) two_tasks
  = (Raise KeyError, two_tasks).
Proof.
  apply (from_dict_priority_name_is_exact _ two_tasks (VStr "Call the bank") (VStr "") VNone
           "low"); try reflexivity.
  unfold priority_names. intros H.
  repeat (apply elem_of_cons in H as [H | H]; [discriminate |]). by apply elem_of_nil in H.
Defined.

(** ** When saving fails *)

Lemma task_dict_no_to_dict t d dd p s c ca : "to_dict" ∉ dom (task_dict t d dd p s c ca).
Proof.
  rewrite task_dict_dom, elem_of_list_to_set. intros H.
  repeat (apply elem_of_cons in H as [H | H]; [discriminate |]). by apply elem_of_nil in H.
Qed.

Lemma attr_name_not_member v : is_member v = false → attr_name v = Raise AttributeError.
Proof. by destruct v. Qed.

(** The comprehension of [save_tasks] over tasks that are fine and then
    one whose priority is no member. *)
Lemma for_each_to_dict_bad_priority w good gl l rest t d dd p s c ca :
  Forall2 (is_task w) good gl →
  objs w !! l = Some (task_dict t d dd p s c ca) →
  is_member p = false →
  for_each (call_method "to_dict" Task.to_dict) (good ++ l :: rest)%list w
  = (Raise AttributeError, w).
Proof.
  intros Hgood Hl Hp. induction Hgood as [| r f good gl Hr _ IH]; cbn [for_each app].
  - erewrite bind_Raise; [done |].
    unfold call_method. erewrite bind_Ret by (apply read_obj_Ret; exact Hl).
    rewrite bool_decide_eq_false_2 by apply task_dict_no_to_dict.
    destruct (task_dict_lookup t d dd p s c ca) as (H1 & H2 & H3 & H4 & _).
    unfold Task.to_dict.
    run_getattr Hl H1. run_getattr Hl H2. run_getattr Hl H3. run_getattr Hl H4.
    apply bind_lift_Raise. by apply attr_name_not_member.
  - erewrite bind_Ret by (by apply call_to_dict_Ret).
    by erewrite bind_Raise by exact IH.
Qed.

(** X8: [save_tasks] opens the file for writing before it asks the tasks for
    their records.  When a task of the store has a priority that is no
    member of [Priority] (a task built with [priority="HIGH"], say), and the
    tasks before it are fine, [save_tasks] raises [AttributeError] and the
    file is left empty: what it held before is lost, and the next
    [load_tasks] finds a file that does not parse. *)
Theorem save_tasks_failure_empties_file w m good gl l rest t d dd p s c ca :
  lsts w !! TaskManager.tasks m = Some (good ++ l :: rest)%list →
  Forall2 (is_task w) good gl →
  objs w !! l = Some (task_dict t d dd p s c ca) →
  is_member p = false →
  TaskManager.filename m ∉ denied w →
  ∃ w',
    TaskManager.save_tasks m w = (Raise AttributeError, w')
    ∧ fs w' !! TaskManager.filename m = Some Malformed
    ∧ objs w' = objs w ∧ lsts w' = lsts w
    ∧ ∃ l0 w'',
        TaskManager.load_tasks m w'
        = (Ret (TaskManager.Self (TaskManager.filename m) l0), w'')
        ∧ lsts w'' !! l0 = Some [].
Proof.
  intros Hm Hgood Hl Hp Hd.
  set (w' := set_fs (insert (TaskManager.filename m) Malformed) w).
  exists w'. split.
  { unfold TaskManager.save_tasks.
    erewrite bind_Ret; [| unfold open_write; by rewrite decide_False by done].
    erewrite bind_Ret by (by apply read_list_Ret).
    erewrite bind_Raise; [done |].
    by apply (for_each_to_dict_bad_priority w' good gl l rest t d dd p s c ca). }
  assert (fs w' !! TaskManager.filename m = Some Malformed) as Hf
    by (cbn; apply lookup_insert_eq).
  split; [done |]. split; [done |]. split; [done |].
  eexists _, _. split.
  { rewrite (load_tasks_file w' m Malformed Hf Hd).
    erewrite try_except_caught by reflexivity. by erewrite bind_Ret by reflexivity. }
  by rewrite lsts_set_lsts, lookup_insert_eq.
Qed.

Lemma save_tasks_failure_empties_file_witness :
  ∃ w',
    TaskManager.save_tasks manager string_priority = (Raise AttributeError, w')
    ∧ fs w' !! TaskManager.filename manager = Some Malformed
    ∧ objs w' = objs string_priority ∧ lsts w' = lsts string_priority
    ∧ ∃ l0 w'',
        TaskManager.load_tasks manager w'
        = (Ret (TaskManager.Self (TaskManager.filename manager) l0), w'')
        ∧ lsts w'' !! l0 = Some [].
Proof.
  apply (save_tasks_failure_empties_file string_priority manager [1%positive] [plan]
           2%positive [] (VStr "Pay rent") (VStr "") VNone (VStr "HIGH") (VStatus PENDING)
           (VStr "2024-01-03 09:00:00") VNone).
  - reflexivity.
  - repeat constructor.
  - reflexivity.
  - reflexivity.
  - apply not_elem_of_empty.
Defined.

(** ** When updating fails *)

Lemma for_app {A} (l1 l2 : list A) body w :
  for_ (l1 ++ l2)%list body w = (for_ l1 body ;; for_ l2 body) w.
Proof.
  revert w. induction l1 as [| x l1 IH]; intros w; cbn [for_ app]; [done |].
  unfold bind. destruct (body x w) as [[[] | e] w1] eqn:Hx; [| done].
  rewrite IH. done.
Qed.

Lemma py_upper_not_str v : is_str v = false → py_upper v = Raise AttributeError.
Proof. by destruct v. Qed.

(** X9: [update_task] upper-cases the priority it is given, so it takes a
    string.  Given anything else for [priority] (a member of [Priority], as
    the menu front end passes) it raises [AttributeError]: the fields named
    before [priority] are already overwritten in the task, the ones named
    after are not, and nothing is saved. *)
Theorem update_task_priority_not_a_string_raises
    object_attr w m refs fl index task f pre v post f1 :
  is_store w m refs fl →
  0 ≤ index < Z.of_nat (List.length refs) →
  refs !! Z.to_nat index = Some task →
  fl !! Z.to_nat index = Some f →
  field_updates object_attr pre f = Some f1 →
  is_str v = false →
  ∃ w',
    TaskManager.update_task object_attr m index (pre ++ ("priority", v) :: post)%list w
    = (Raise AttributeError, w')
    ∧ is_task w' task f1
    ∧ fs w' = fs w
    ∧ lsts w' = lsts w.
Proof.
  intros [Hm Hfl] Hi Hr Hf Hpre Hv.
  assert (is_task w task f) as Hl by (by eapply Forall2_lookup_lr).
  exists (set_objs (insert task (instance f1)) w). split; [| by split; [apply is_task_at |]].
  unfold TaskManager.update_task.
  erewrite bind_Ret by (by apply read_list_Ret).
  rewrite in_range_true by done. rewrite Hr.
  erewrite bind_Raise; [done |].
  rewrite for_app. erewrite bind_Ret by (by eapply for_update_task).
  cbn [for_]. erewrite bind_Raise; [done |].
  unfold TaskManager.update_field. run_hasattr_field.
  rewrite decide_True by done. apply bind_lift_Raise. by apply py_upper_not_str.
Qed.

Lemma update_task_priority_not_a_string_raises_witness :
  ∃ w',
    TaskManager.update_task cpython_object_attr manager 0
      ([("title", VStr "project-beta-plan")] ++ ("priority", VPriority HIGH)
         :: [("status", VStatus COMPLETED)])%list two_tasks
    = (Raise AttributeError, w')
    ∧ is_task w' 1%positive
        (Fields (VStr "project-beta-plan") (VStr "") VNone MEDIUM PENDING
                (VStr "2024-01-01 10:00:00") VNone)
    ∧ fs w' = fs two_tasks
    ∧ lsts w' = lsts two_tasks.
Proof.
  apply (update_task_priority_not_a_string_raises cpython_object_attr two_tasks manager
           [1%positive; 2%positive] [plan; milk] 0 1%positive plan
           [("title", VStr "project-beta-plan")] (VPriority HIGH)
           [("status", VStatus COMPLETED)]).
  - split; [reflexivity | repeat constructor].
  - simpl; lia.
  - reflexivity.
  - reflexivity.
  - reflexivity.
  - reflexivity.
Defined.

Lemma hasattr_class_name oa w l o k :
  objs w !! l = Some o → k ∈ Task_class_names → hasattr oa l k w = (Ret true, w).
Proof.
  intros Hl Hk. unfold hasattr. erewrite bind_Ret by (apply read_obj_Ret; exact Hl).
  rewrite (bool_decide_eq_true_2 (k ∈ Task_class_names)) by done.
  by rewrite orb_true_r.
Qed.

Lemma call_to_dict_shadowed w l o :
  objs w !! l = Some o → "to_dict" ∈ dom o →
  call_method "to_dict" Task.to_dict l w = (Raise TypeError, w).
Proof.
  intros Hl Hk. unfold call_method. erewrite bind_Ret by (apply read_obj_Ret; exact Hl).
  by rewrite bool_decide_eq_true_2.
Qed.

Lemma for_each_to_dict_shadowed w task o refs :
  objs w !! task = Some o → "to_dict" ∈ dom o →
  task ∈ refs →
  Forall (λ r, r ≠ task → ∃ f, is_task w r f) refs →
  for_each (call_method "to_dict" Task.to_dict) refs w = (Raise TypeError, w).
Proof.
  intros Hl Hk Hin Hall. induction Hall as [| r refs Hr _ IH]; [by apply elem_of_nil in Hin |].
  cbn [for_each]. destruct (decide (r = task)) as [-> | Hne].
  - by erewrite bind_Raise by (by eapply call_to_dict_shadowed).
  - destruct (Hr Hne) as [f Hf]. erewrite bind_Ret by (by apply call_to_dict_Ret).
    erewrite bind_Raise; [done |]. apply IH.
    by apply elem_of_cons in Hin as [-> | Hin].
Qed.

(** X10: [update_task] takes every name the task has as an attribute, and a
    method is one: given [to_dict=v] it stores [v] in the task under
    [to_dict], where it hides the method.  The save that follows then
    raises [TypeError] with the file already emptied, and so does every
    later [save_tasks]. *)
Theorem update_task_method_name_breaks_saving object_attr w m refs fl index task f v :
  is_store w m refs fl →
  0 ≤ index < Z.of_nat (List.length refs) →
  refs !! Z.to_nat index = Some task →
  fl !! Z.to_nat index = Some f →
  TaskManager.filename m ∉ denied w →
  ∃ w',
    TaskManager.update_task object_attr m index [("to_dict", v)] w = (Raise TypeError, w')
    ∧ objs w' !! task = Some (<["to_dict" := v]> (instance f))
    ∧ fs w' !! TaskManager.filename m = Some Malformed
    ∧ TaskManager.save_tasks m w' = (Raise TypeError, w').
Proof.
  intros [Hm Hfl] Hi Hr Hf Hd.
  assert (is_task w task f) as Hl by (by eapply Forall2_lookup_lr).
  set (o := <["to_dict" := v]> (instance f)).
  set (w1 := set_objs (insert task o) w).
  set (w' := set_fs (insert (TaskManager.filename m) Malformed) w1).
  assert (for_each (call_method "to_dict" Task.to_dict) refs w' = (Raise TypeError, w'))
    as Hrun.
  { apply (for_each_to_dict_shadowed w' task o).
    - cbn. apply lookup_insert_eq.
    - unfold o. rewrite dom_insert_L. set_solver.
    - by eapply list_elem_of_lookup_2.
    - apply Forall_forall. intros r Hin Hne.
      apply list_elem_of_lookup in Hin as [j Hj].
      destruct (Forall2_lookup_l _ _ _ _ _ Hfl Hj) as (g & _ & Hg).
      exists g. unfold is_task in *. cbn. by rewrite lookup_insert_ne. }
  assert (TaskManager.save_tasks m w1 = (Raise TypeError, w')) as Hsave1.
  { unfold TaskManager.save_tasks.
    erewrite bind_Ret; [| unfold open_write; by rewrite decide_False by done].
    erewrite bind_Ret by (by apply read_list_Ret).
    by erewrite bind_Raise by exact Hrun. }
  exists w'. split.
  { unfold TaskManager.update_task.
    erewrite bind_Ret by (by apply read_list_Ret).
    rewrite in_range_true by done. rewrite Hr.
    erewrite bind_Ret.
    2: { cbn [for_]. erewrite bind_Ret; [reflexivity |].
         unfold TaskManager.update_field.
         erewrite bind_Ret
           by (eapply hasattr_class_name; [exact Hl | repeat constructor]).
         repeat (rewrite decide_False by done).
         erewrite setattr_Ret; [reflexivity | exact Hl |].
         unfold special. intros [? | [? | ?]]; discriminate. }
    by erewrite bind_Raise by exact Hsave1. }
  split; [cbn; apply lookup_insert_eq |].
  split; [cbn; apply lookup_insert_eq |].
  unfold TaskManager.save_tasks.
  erewrite bind_Ret.
  2: { unfold open_write. rewrite decide_False by done. reflexivity. }
  assert (set_fs (insert (TaskManager.filename m) Malformed) w' = w') as ->.
  { unfold w', set_fs. cbn. by rewrite insert_insert_eq. }
  erewrite bind_Ret by (by apply read_list_Ret).
  by erewrite bind_Raise by exact Hrun.
Qed.

Lemma update_task_method_name_breaks_saving_witness :
  ∃ w',
    TaskManager.update_task cpython_object_attr manager 1 [("to_dict", VStr "x")] two_tasks
    = (Raise TypeError, w')
    ∧ objs w' !! 2%positive = Some (<["to_dict" := VStr "x"]> (instance milk))
    ∧ fs w' !! TaskManager.filename manager = Some Malformed
    ∧ TaskManager.save_tasks manager w' = (Raise TypeError, w').
Proof.
  apply (update_task_method_name_breaks_saving cpython_object_attr two_tasks manager
           [1%positive; 2%positive] [plan; milk] 1 2%positive milk (VStr "x")).
  - split; [reflexivity | repeat constructor].
  - simpl; lia.
  - reflexivity.
  - reflexivity.
  - apply not_elem_of_empty.
Defined.

(** ** When searching fails *)

Lemma title_lookup f : instance f !! "title" = Some (title f).
Proof.
  by destruct (task_dict_lookup (title f) (description f) (due_date f)
                 (VPriority (priority f)) (VStatus (status f)) (created_at f)
                 (completed_at f)) as (H1 & _).
Qed.

Lemma py_lower_not_str v : is_str v = false → py_lower v = Raise AttributeError.
Proof. by destruct v. Qed.

Lemma for_each_if_matches_raises w keyword refs fl : ∀ i f,
  Forall2 (is_task w) refs fl →
  fl !! i = Some f → is_str (title f) = false →
  Forall (λ g, valid g = true) (take i fl) →
  for_each_if (TaskManager.matches (Str.lower keyword)) refs w = (Raise AttributeError, w).
Proof.
  intros i f Hfl. revert i. induction Hfl as [| r g refs fl Hr _ IH]; intros i Hi Ht Hv.
  - by rewrite lookup_nil in Hi.
  - cbn [for_each_if]. destruct i as [| i].
    + injection Hi as ->. erewrite bind_Raise; [done |].
      unfold TaskManager.matches.
      erewrite bind_Ret by (eapply getattr_Ret; [exact Hr | apply title_lookup]).
      apply bind_lift_Raise. by apply py_lower_not_str.
    + cbn [take] in Hv. apply Forall_cons in Hv as [Hg Hv].
      erewrite bind_Ret by (by apply matches_Ret).
      by erewrite bind_Raise by (by eapply IH).
Qed.

(** X11: [search_tasks] lower-cases the title of every task, so every title must
    be a string.  On a store that holds a task whose title is not one ([None],
    as [from_dict] makes of a record with a null title), the tasks before it
    being valid, [search_tasks] raises [AttributeError] whatever the keyword,
    and returns no list. *)
Theorem search_tasks_title_not_a_string_raises w m refs fl i f keyword :
  is_store w m refs fl →
  fl !! i = Some f →
  is_str (title f) = false →
  Forall (λ g, valid g = true) (take i fl) →
  TaskManager.search_tasks m keyword w = (Raise AttributeError, w).
Proof.
  intros [Hm Hfl] Hi Ht Hv. unfold TaskManager.search_tasks.
  erewrite bind_Ret by (by apply read_list_Ret).
  by erewrite bind_Raise by (by eapply for_each_if_matches_raises).
Qed.

Lemma search_tasks_title_not_a_string_raises_witness :
  TaskManager.search_tasks manager "alpha" null_title = (Raise AttributeError, null_title).
Proof.
  apply (search_tasks_title_not_a_string_raises null_title manager [1%positive; 2%positive]
           [plan; untitled] 1 untitled "alpha").
  - split; [reflexivity | repeat constructor].
  - reflexivity.
  - reflexivity.
  - repeat constructor.
Defined.

(** ** What an update leaves behind *)

Lemma retarget_lookup_task task f' refs : ∀ fl j,
  List.length refs = List.length fl →
  refs !! j = Some task → retarget task f' refs fl !! j = Some f'.
Proof.
  unfold retarget. intros fl j Hlen Hj. apply lookup_zip_with_Some.
  destruct (lookup_lt_is_Some_2 fl j) as [g Hg].
  { rewrite <- Hlen. by eapply lookup_lt_Some. }
  exists task, g. by rewrite decide_True.
Qed.

Lemma retarget_lookup_other task f' refs fl j r g :
  refs !! j = Some r → r ≠ task → fl !! j = Some g →
  retarget task f' refs fl !! j = Some g.
Proof.
  unfold retarget. intros Hj Hne Hg. apply lookup_zip_with_Some.
  exists r, g. by rewrite decide_False.
Qed.

(** X12: After [update_task] with fields it accepts, the file holds the records of
    the tasks of the store as they are now, in order; the update shows at
    every place of the list that refers to the updated task (a task held
    twice is one object), and the other tasks are as before. *)
Theorem update_task_saves_the_store object_attr w m refs fl index task f kwargs :
  is_store w m refs fl →
  0 ≤ index < Z.of_nat (List.length refs) →
  refs !! Z.to_nat index = Some task →
  fl !! Z.to_nat index = Some f →
  Forall (λ kv, accepted object_attr kv = true) kwargs →
  Forall (λ f, jsonable f = true) fl →
  TaskManager.filename m ∉ denied w →
  ∃ w' f',
    TaskManager.update_task object_attr m index kwargs w = (Ret true, w')
    ∧ field_updates object_attr kwargs f = Some f'
    ∧ is_store w' m refs (retarget task f' refs fl)
    ∧ fs w' !! TaskManager.filename m
      = Some (Document (VList (record <$> retarget task f' refs fl)))
    ∧ (∀ j, refs !! j = Some task → retarget task f' refs fl !! j = Some f')
    ∧ (∀ j r g, refs !! j = Some r → r ≠ task → fl !! j = Some g →
                retarget task f' refs fl !! j = Some g).
Proof.
  intros Hst Hi Hr Hf Hacc Hjs Hd. pose proof Hst as [Hm Hfl].
  destruct (accepted_field_updates object_attr kwargs f Hacc) as [f' Hu].
  eexists _, f'. split; [by eapply update_task_Ret |].
  split; [done |].
  split; [split; [done | by apply retarget_store] |].
  split; [cbn; apply lookup_insert_eq |].
  split.
  - intros j Hj. apply retarget_lookup_task; [by eapply Forall2_length | done].
  - intros j r g. apply retarget_lookup_other.
Qed.

Lemma update_task_saves_the_store_witness :
  ∃ w' f',
    TaskManager.update_task cpython_object_attr manager 0 [("title", VStr "project-beta-plan")]
      same_task_twice = (Ret true, w')
    ∧ field_updates cpython_object_attr [("title", VStr "project-beta-plan")] plan = Some f'
    ∧ is_store w' manager [1%positive; 1%positive]
        (retarget 1%positive f' [1%positive; 1%positive] [plan; plan])
    ∧ fs w' !! TaskManager.filename manager
      = Some (Document (VList (record <$> retarget 1%positive f' [1%positive; 1%positive]
                                             [plan; plan])))
    ∧ (∀ j, [1%positive; 1%positive] !! j = Some 1%positive →
            retarget 1%positive f' [1%positive; 1%positive] [plan; plan] !! j = Some f')
    ∧ (∀ j r g, [1%positive; 1%positive] !! j = Some r → r ≠ 1%positive →
                [plan; plan] !! j = Some g →
                retarget 1%positive f' [1%positive; 1%positive] [plan; plan] !! j = Some g).
Proof.
  apply (update_task_saves_the_store cpython_object_attr same_task_twice manager
           [1%positive; 1%positive] [plan; plan] 0 1%positive plan).
  - split; [reflexivity | repeat constructor].
  - simpl; lia.
  - reflexivity.
  - reflexivity.
  - repeat constructor.
  - repeat constructor.
  - apply not_elem_of_empty.
Defined.

(** ** Files that hold no list *)

Lemma from_dict_not_a_dict v w :
  (∀ d, v ≠ VDict d) → Task.from_dict v w = (Raise TypeError, w).
Proof. intros Hv. destruct v; try done. by destruct (Hv d). Qed.

(** X13: A file that parses to something other than a list makes [load_tasks]
    raise [TypeError]: a number, a boolean and null cannot be iterated, the
    characters of a string and the keys of an object are no records.  The
    error is not caught, and no list is made. *)
Theorem load_tasks_document_not_a_list w m v :
  fs w !! TaskManager.filename m = Some (Document v) →
  TaskManager.filename m ∉ denied w →
  scalar v = true ∨ (∃ s, v = VStr s ∧ s ≠ "") ∨ (∃ d, v = VDict d ∧ d ≠ ∅) →
  TaskManager.load_tasks m w = (Raise TypeError, w).
Proof.
  intros Hf Hd Hv. rewrite (load_tasks_file _ _ _ Hf Hd).
  apply try_except_other; [| done]. cbn [json_load]. erewrite bind_Ret by reflexivity.
  destruct Hv as [Hv | [(s & -> & Hs) | (d & -> & Hne)]].
  - by destruct v.
  - destruct s as [| c s]; [done |]. erewrite bind_lift_Ret by reflexivity.
    erewrite bind_Raise; [done |]. cbn [list_ascii_of_string fmap list_fmap for_each].
    by erewrite bind_Raise by (by apply from_dict_not_a_dict).
  - erewrite bind_lift_Ret by reflexivity.
    destruct (map_to_list d) as [| [k x] kvs] eqn:Hl.
    { by apply map_to_list_empty_iff in Hl. }
    erewrite bind_Raise; [done |]. cbn [fmap list_fmap for_each].
    by erewrite bind_Raise by (by apply from_dict_not_a_dict).
Qed.

Lemma load_tasks_document_not_a_list_witness :
  TaskManager.load_tasks manager number_file = (Raise TypeError, number_file).
Proof.
  apply (load_tasks_document_not_a_list number_file manager (VInt 7)).
  - reflexivity.
  - apply not_elem_of_empty.
  - by left.
Defined.

(** ** The priority of an update, case ignored *)







(** ** Loading, then saving *)

(** [load_tasks] on a file of records, with what it leaves unchanged. *)
Lemma load_tasks_records_frame w m fl :
  fs w !! TaskManager.filename m = Some (Document (VList (record <$> fl))) →
  TaskManager.filename m ∉ denied w →
  ∃ refs l w',
    TaskManager.load_tasks m w = (Ret (TaskManager.Self (TaskManager.filename m) l), w')
    ∧ is_store w' (TaskManager.Self (TaskManager.filename m) l) refs fl
    ∧ fs w' = fs w
    ∧ denied w' = denied w.
Proof.
  intros Hf Hd.
  destruct (for_each_from_dict_records fl w) as (refs & w1 & Hrun & Hrefs & Hext).
  destruct Hext as (Ho & Hl & Hfs & Hden & Hc).
  exists refs, (fresh (dom (lsts w1))), (set_lsts (insert (fresh (dom (lsts w1))) refs) w1).
  split.
  { rewrite (load_tasks_file _ _ _ Hf Hd).
    apply try_except_Ret. cbn [json_load].
    erewrite bind_Ret by reflexivity. erewrite bind_lift_Ret by reflexivity.
    erewrite bind_Ret by exact Hrun. by erewrite bind_Ret by reflexivity. }
  split; [split; [cbn; by rewrite lookup_insert_eq | done] |].
  by split.
Qed.

(** X15: A manager made on a file that parses to the records of tasks, saving
    at once, leaves a file that parses to the same records in the same
    order, and leaves every other file alone: the new manager holds tasks
    with the fields of the records, in order, and [save_tasks] writes their
    records.  (The text of the file is written anew by [json.dump]; this is
    about what the file parses to, not about its layout.) *)
Theorem load_then_save_keeps_the_records w path fl :
  fs w !! path = Some (Document (VList (record <$> fl))) →
  path ∉ denied w →
  Forall (λ f, jsonable f = true) fl →
  ∃ m w1 refs w2,
    TaskManager.__init__ path w = (Ret m, w1)
    ∧ TaskManager.filename m = path
    ∧ is_store w1 m refs fl
    ∧ TaskManager.save_tasks m w1 = (Ret tt, w2)
    ∧ fs w2 !! path = Some (Document (VList (record <$> fl)))
    ∧ (∀ other, other ≠ path → fs w2 !! other = fs w !! other)
    ∧ is_store w2 m refs fl.
Proof.
  intros Hf Hd Hjs.
  set (l0 := fresh (dom (lsts w))).
  set (w0 := set_lsts (insert l0 []) w).
  destruct (load_tasks_records_frame w0 (TaskManager.Self path l0) fl Hf Hd)
    as (refs & l & w1 & Hload & Hst1 & Hfs1 & Hden1).
  cbn [TaskManager.filename] in *.
  exists (TaskManager.Self path l), w1, refs. eexists.
  split; [unfold TaskManager.__init__; by erewrite bind_Ret by reflexivity |].
  split; [done |]. split; [done |].
  split.
  { apply (save_tasks_Ret w1 _ refs fl); [done | done |]. by rewrite Hden1. }
  split; [cbn; by rewrite lookup_insert_eq |].
  split; [| done].
  intros other Hne. cbn. rewrite Hfs1. cbn. by rewrite lookup_insert_ne.
Qed.

Lemma load_then_save_keeps_the_records_witness :
  ∃ m w1 refs w2,
    TaskManager.__init__ "t.json" string_priority = (Ret m, w1)
    ∧ TaskManager.filename m = "t.json"
    ∧ is_store w1 m refs [plan]
    ∧ TaskManager.save_tasks m w1 = (Ret tt, w2)
    ∧ fs w2 !! "t.json" = Some (Document (VList (record <$> [plan])))
    ∧ (∀ other, other ≠ "t.json" → fs w2 !! other = fs string_priority !! other)
    ∧ is_store w2 m refs [plan].
Proof.
  apply (load_then_save_keeps_the_records string_priority "t.json" [plan]).
  - reflexivity.
  - apply not_elem_of_empty.
  - repeat constructor.
Defined.

(** ** Completing, then saving *)

Lemma completed_jsonable t f : jsonable f = true → jsonable (completed t f) = true.
Proof.
  unfold jsonable, completed. cbn. rewrite !andb_true_iff.
  intros ((((H1 & H2) & H3) & H4) & _). by repeat split.
Qed.

(** X16: [mark_complete] on a task of the store and then [save_tasks], as the menu
    front end does: the file holds the records of the tasks of the store in
    order, the completed task with status "Completed" and the time of the
    call as [completed_at]. *)
Theorem mark_complete_then_save_persists w m refs fl i task f :
  is_store w m refs fl →
  refs !! i = Some task →
  fl !! i = Some f →
  Forall (λ f, jsonable f = true) fl →
  TaskManager.filename m ∉ denied w →
  ∃ w',
    (Task.mark_complete task ;; TaskManager.save_tasks m) w = (Ret tt, w')
    ∧ is_store w' m refs (retarget task (completed (clock w) f) refs fl)
    ∧ fs w' !! TaskManager.filename m
      = Some (Document (VList (record <$> retarget task (completed (clock w) f) refs fl)))
    ∧ retarget task (completed (clock w) f) refs fl !! i = Some (completed (clock w) f)
    ∧ getitem (record (completed (clock w) f)) "status" = Ret (VStr "Completed")
    ∧ getitem (record (completed (clock w) f)) "completed_at" = Ret (VStr (clock w)).
Proof.
  intros [Hm Hfl] Hr Hf Hjs Hd.
  assert (is_task w task f) as Hl by (by eapply Forall2_lookup_lr).
  set (f' := completed (clock w) f).
  set (w1 := set_objs (insert task (instance f')) w).
  assert (is_store w1 m refs (retarget task f' refs fl)) as Hst1.
  { split; [done | by apply retarget_store]. }
  eexists. split.
  { erewrite bind_Ret by (by apply mark_complete_task).
    apply (save_tasks_Ret w1 m refs (retarget task f' refs fl)); [done | | done].
    apply retarget_jsonable; [| done]. apply completed_jsonable.
    by eapply Forall_lookup_1 in Hjs. }
  split; [done |]. split; [cbn; apply lookup_insert_eq |].
  split; [apply retarget_lookup_task; [by eapply Forall2_length | done] |].
  destruct (task_dict_lookup (title f') (description f') (due_date f')
              (VStr (Priority_name (priority f'))) (VStr (Status_value (status f')))
              (created_at f') (completed_at f')) as (_ & _ & _ & _ & Hs & _ & Hc).
  unfold getitem, record. by rewrite Hs, Hc.
Qed.

Lemma mark_complete_then_save_persists_witness :
  ∃ w',
    (Task.mark_complete 1%positive ;; TaskManager.save_tasks manager) two_tasks = (Ret tt, w')
    ∧ is_store w' manager [1%positive; 2%positive]
        (retarget 1%positive (completed (clock two_tasks) plan) [1%positive; 2%positive]
                  [plan; milk])
    ∧ fs w' !! TaskManager.filename manager
      = Some (Document (VList (record <$> retarget 1%positive (completed (clock two_tasks) plan)
                                             [1%positive; 2%positive] [plan; milk])))
    ∧ retarget 1%positive (completed (clock two_tasks) plan) [1%positive; 2%positive]
               [plan; milk] !! 0%nat = Some (completed (clock two_tasks) plan)
    ∧ getitem (record (completed (clock two_tasks) plan)) "status" = Ret (VStr "Completed")
    ∧ getitem (record (completed (clock two_tasks) plan)) "completed_at"
      = Ret (VStr (clock two_tasks)).
Proof.
  apply (mark_complete_then_save_persists two_tasks manager [1%positive; 2%positive]
           [plan; milk] 0%nat 1%positive plan).
  - split; [reflexivity | repeat constructor].
  - reflexivity.
  - reflexivity.
  - repeat constructor.
  - apply not_elem_of_empty.
Defined.
